(** * LLM provider layer: retry/backoff, chat degradation, message
      normalisation and provider registry

    A shallow embedding of the TypeScript sources

    - [packages/server/src/ollamaEmbedder.ts]   ([makeOllamaEmbedder])
    - [packages/server/src/ollamaLlm.ts]        ([makeOllamaLlm])
    - [llm/providers/ollamaProvider.ts]         ([OllamaProvider])
    - [llm/providers/geminiProvider.ts]         ([GeminiProvider])
    - [packages/server/src/llm/llmProviderFactory.ts] ([getLlmProvider])

    followed by the properties of the specification, each settled on the
    embedding.

    Modelling conventions.
    - JavaScript numbers that count things or hold milliseconds are [Z];
      the jitter, a product with [Math.random()], is a rational [Q].
      [NaN] and fractional configuration values are outside the model.
    - An optional field ([apiKey?: string]) is an [option]; JavaScript
      truthiness is written out ([None], [Some ""] and [Some 0] are falsy).
    - Strings are strings of bytes: [substring] and lengths count bytes
      where JavaScript counts UTF-16 units, which shows only in the preview
      of the prompt that the Ollama adapter logs; [toLowerCase] folds the
      ASCII letters.
    - [async] functions are sequential here: a computation is a function of
      the [World], which counts the calls made to the outside, counts the
      [Math.random()] draws and collects console and timer events.  What
      the outside answers is an oracle indexed by the number of the call,
      so an operation may answer differently every time it is invoked. *)

From Stdlib Require Import ZArith QArith Qround String Ascii List Lia Lqa.
From stdpp Require Import base list strings pretty gmap.

Open Scope string_scope.

(** ** JavaScript values, errors and effects *)

Module Js.

(** An [Error] object: [message], and the [code] axios adds to its errors. *)
Record JsError := mkError {
  errCode : option string;
  errMessage : option string
}.

(** [new Error(msg)] *)
Definition newError (msg : string) : JsError :=
  {| errCode := None; errMessage := Some msg |}.

(** Completion of a call: a value, or a thrown error / rejected promise. *)
Inductive Result (A : Type) : Type :=
| Ok (a : A)
| Throw (e : JsError).
Arguments Ok {A} a.
Arguments Throw {A} e.

Definition isOk {A} (r : Result A) : bool :=
  match r with Ok _ => true | Throw _ => false end.

(** The value of a completion passed through [f]; an error stays. *)
Definition mapResult {A B} (f : A -> B) (r : Result A) : Result B :=
  match r with Ok a => Ok (f a) | Throw e => Throw e end.

(** [haystack.includes(needle)] *)
Fixpoint includes (needle haystack : string) : bool :=
  match haystack with
  | EmptyString => String.prefix needle EmptyString
  | String _ rest => String.prefix needle haystack || includes needle rest
  end.

(** [xs.join(sep)] *)
Definition join (sep : string) (xs : list string) : string :=
  String.concat sep xs.

(** One character of [toLowerCase()].  Only the ASCII letters are folded:
    the bytes of a non-ASCII character are left as they are. *)
Definition lowerAscii (c : ascii) : ascii :=
  let n := nat_of_ascii c in
  if (65 <=? n)%nat && (n <=? 90)%nat then ascii_of_nat (n + 32) else c.

(** [s.toLowerCase()] *)
Fixpoint toLowerCase (s : string) : string :=
  match s with
  | EmptyString => EmptyString
  | String c rest => String (lowerAscii c) (toLowerCase rest)
  end.

(** Truthiness of an optional string: [undefined] and [""] are falsy. *)
Definition truthyStr (o : option string) : bool :=
  match o with
  | Some s => negb (String.eqb s "")
  | None => false
  end.

(** [o || dflt] on an optional string. *)
Definition orStr (o : option string) (dflt : string) : string :=
  match o with
  | Some s => if String.eqb s "" then dflt else s
  | None => dflt
  end.

(** [o || dflt] on an optional number: [undefined] and [0] are falsy,
    every other number, negative ones too, is kept. *)
Definition orNum (o : option Z) (dflt : Z) : Z :=
  match o with
  | Some n => if (n =? 0)%Z then dflt else n
  | None => dflt
  end.

(** [`${o}`] for an optional string. *)
Definition template (o : option string) : string :=
  match o with
  | Some s => s
  | None => "undefined"
  end.

(** The line feed, and the blank-line separator made of two of them. *)
Definition nl : string := String (ascii_of_nat 10) EmptyString.
Definition nlnl : string := nl ++ nl.

(** Reading a property of [undefined]. *)
Definition typeError (prop : string) : JsError :=
  newError ("Cannot read properties of undefined (reading '" ++ prop ++ "')").

(** [Math.round(x)] *)
Definition mathRound (x : Q) : Z := Qfloor (x + (1 # 2)).

(** What a run leaves behind, in the order it happened. *)
Inductive Event : Type :=
| ConsoleLog (msg : string)
| ConsoleWarn (msg : string)
| ConsoleError (msg : string)
  (** [console.error(msg, error)] *)
| ConsoleErrorWith (msg : string) (error : JsError)
  (** [setTimeout(resolve, delay + jitter)]: both summands are kept, so that
      the base delay stays observable next to the jittered one. *)
| SetTimeout (delay : Z) (jitter : Q)
  (** [setTimeout(() => reject(...), ms)], the timer of a deadline *)
| Deadline (ms : Z).

Record World := mkWorld {
  calls : nat;          (* calls made to the outside so far *)
  draws : nat;          (* [Math.random()] draws so far *)
  events : list Event   (* console and timer events, oldest first *)
}.

Definition World0 : World := {| calls := 0; draws := 0; events := [] |}.

(** Computations: state passing over the [World], with exceptions. *)
Definition M (A : Type) : Type := World -> Result A * World.

Definition ret {A} (a : A) : M A := fun w => (Ok a, w).
Definition throw {A} (e : JsError) : M A := fun w => (Throw e, w).
Definition bind {A B} (m : M A) (k : A -> M B) : M B :=
  fun w =>
    match m w with
    | (Ok a, w') => k a w'
    | (Throw e, w') => (Throw e, w')
    end.
(** [try { body } catch (error) { handler error }] *)
Definition tryCatch {A} (body : M A) (handler : JsError -> M A) : M A :=
  fun w =>
    match body w with
    | (Ok a, w') => (Ok a, w')
    | (Throw e, w') => handler e w'
    end.

(** A completion that is already there, taken into a computation. *)
Definition liftResult {A} (r : Result A) : M A := fun w => (r, w).

Definition emit (ev : Event) : M unit :=
  fun w => (Ok tt, {| calls := calls w; draws := draws w;
                      events := events w ++ [ev] |}).

Definition consoleLog (msg : string) : M unit := emit (ConsoleLog msg).
Definition consoleWarn (msg : string) : M unit := emit (ConsoleWarn msg).
Definition consoleError (msg : string) : M unit := emit (ConsoleError msg).
Definition consoleErrorWith (msg : string) (error : JsError) : M unit :=
  emit (ConsoleErrorWith msg error).

(** [await op()]: the operation answers according to how many calls were
    made before this one, and the call is counted. *)
Definition invoke {A} (op : nat -> Result A) : M A :=
  fun w => (op (calls w), {| calls := S (calls w); draws := draws w;
                             events := events w |}).

(** [Math.random()], answered by the oracle [random]. *)
Definition mathRandom (random : nat -> Q) : M Q :=
  fun w => (Ok (random (draws w)), {| calls := calls w; draws := S (draws w);
                                      events := events w |}).

(** [await new Promise((resolve) => setTimeout(resolve, delay + jitter))] *)
Definition sleep (delay : Z) (jitter : Q) : M unit :=
  emit (SetTimeout delay jitter).

(** The base delays of the timers armed during a run, oldest first. *)
Definition baseDelays (w : World) : list Z :=
  omap (fun ev => match ev with SetTimeout d _ => Some d | _ => None end)
       (events w).

End Js.
Export Js.

Declare Scope js_scope.
Delimit Scope js_scope with js.
Notation "x <- m ;; k" := (bind m (fun x => k))
  (at level 100, m at next level, right associativity) : js_scope.
Notation "m ;;; k" := (bind m (fun _ => k))
  (at level 100, right associativity) : js_scope.

(** ** The Backoff Executor: [withBackoff]

    The function is written twice in the repository, word for word the same:
    inside [makeOllamaEmbedder] (ollamaEmbedder.ts) and inside
    [OllamaProvider.createEmbedder].  [numOfAttempts], [maxDelay] and
    [startingDelay] are the constants its closure captures. *)

Module Backoff.
Section WithBackoff.
Context {T : Type}.
Variables (numOfAttempts maxDelay startingDelay : Z).
(** the source of [Math.random()] *)
Variable random : nat -> Q.
(** the operation [fn]: what its i-th invocation answers *)
Variable fn : nat -> Result T.

Local Open Scope Z_scope.

Definition shouldNotReachHere : JsError := newError "Should not reach here".

(** The text of the warning printed before a retry. *)
Definition retryWarning (actualDelay : Q) (attempt : Z) : string :=
  "Ollama API call failed, retrying in " ++ pretty (mathRound actualDelay)
    ++ "ms (attempt " ++ pretty attempt ++ "/" ++ pretty numOfAttempts ++ ")".

(** The end of the [catch] block once [delay] is updated: draw the jitter,
    warn, and wait. *)
Definition pause (attempt delay : Z) : M unit :=
  (r <- mathRandom random ;;
   let jitter := (r * (1 # 10) * inject_Z delay)%Q in
   let actualDelay := (inject_Z delay + jitter)%Q in
   consoleWarn (retryWarning actualDelay attempt) ;;;
   sleep delay jitter)%js.

(** The [while] loop, with [attempt] and [delay] its two variables.  The
    loop is bounded by [fuel]; [None] means that the fuel ran out. *)
Fixpoint loop (fuel : nat) (attempt delay : Z) (w : World)
  : option (Result T * World) :=
  match fuel with
  | O => None
  | S fuel' =>
    if attempt <? numOfAttempts then
      match invoke fn w with
      | (Ok v, w1) => Some (Ok v, w1)
      | (Throw error, w1) =>
        let attempt := attempt + 1 in
        if attempt >=? numOfAttempts then Some (Throw error, w1)
        else
          (* exponential backoff, capped at maxDelay *)
          let delay := Z.min (delay * 2) maxDelay in
          match pause attempt delay w1 with
          | (Ok _, w2) => loop fuel' attempt delay w2
          | (Throw e, w2) => Some (Throw e, w2)
          end
      end
    else Some (Throw shouldNotReachHere, w)
  end.

(** Fuel that no run exhausts: one round for each attempt and one more for
    leaving the loop. *)
Definition fuelFor : nat := S (Z.to_nat numOfAttempts).

Definition withBackoff (w : World) : option (Result T * World) :=
  loop fuelFor 0 startingDelay w.

End WithBackoff.
End Backoff.

(** ** Shared shapes *)

(** A message of the conversation; [role] is a string in the source. *)
Record Message := mkMessage {
  role : string;
  content : string
}.

(** What a chat call hands back. *)
Record ChatResult := mkChatResult {
  resRole : string;
  resContent : string
}.

(** What an embed call hands back. *)
Record EmbedResult := mkEmbedResult {
  embedding : list Q
}.

(** [LlmProviderConfig]: every field is optional; the last three are the
    Ollama-specific ones read through the index signature. *)
Record LlmProviderConfig := mkConfig {
  apiKey : option string;
  baseUrl : option string;
  model : option string;
  embeddingModel : option string;
  timeout : option Z;
  numOfAttempts : option Z;
  maxDelay : option Z;
  startingDelay : option Z
}.

Definition emptyConfig : LlmProviderConfig :=
  {| apiKey := None; baseUrl := None; model := None; embeddingModel := None;
     timeout := None; numOfAttempts := None; maxDelay := None;
     startingDelay := None |}.

(** The chat capability; [answerQuestionStream] delivers the chunks of the
    one-element sequence it builds. *)
Record ChatLlm := mkChatLlm {
  answerQuestionAwaited : list Message -> M ChatResult;
  answerQuestionStream : list Message -> M (list string)
}.

(** The embed capability.  [None] stands for a run that exhausts its fuel,
    which the totality lemmas exclude. *)
Record Embedder := mkEmbedder {
  embed : string -> World -> option (Result EmbedResult * World)
}.

(** The two apologies of the chat adapters. *)
Definition timeoutApology : string :=
  "I apologize, but I'm having trouble processing your request at the moment. The response is taking longer than expected. Please try a simpler query or try again later.".
Definition technicalApology : string :=
  "I apologize, but I'm experiencing technical difficulties at the moment. Please try again later.".

(** The Streaming Shim: the awaited answer as a single chunk. *)
Definition streamOf (awaited : list Message -> M ChatResult)
  (messages : list Message) : M (list string) :=
  (response <- awaited messages ;; ret [resContent response])%js.

(** ** The outside: HTTP and SDK calls, answered by oracles *)

Module Net.

(** An axios response; [data] may be missing. *)
Record AxiosResponse (D : Type) := mkAxiosResponse {
  data : option D
}.
Arguments mkAxiosResponse {D} data.
Arguments data {D} a.

(** Body of the reply of [/api/generate].  A body is taken to carry its
    [response], a string; a body without that field, for which the source
    returns a result whose [content] is [undefined], is outside the model. *)
Record GenerateData := mkGenerateData {
  dataResponse : string
}.

(** Body of the reply of [/api/embeddings]; [embedding] may be missing. *)
Record EmbeddingsData := mkEmbeddingsData {
  dataEmbedding : option (list Q)
}.

(** [axios.post(url, { model, prompt, stream }, { timeout })] *)
Record GenerateRequest := mkGenerateRequest {
  genUrl : string;
  genModel : string;
  genPrompt : string;
  genStream : bool;
  genTimeout : Z
}.

(** [axios.post(url, { model, prompt })] *)
Record EmbeddingsRequest := mkEmbeddingsRequest {
  embUrl : string;
  embModel : string;
  embPrompt : string
}.

(** A message in Gemini's wire shape, [{ role, parts: [{ text }] }].  The
    source builds [parts] with exactly one part and only ever reads and writes
    [parts[0].text]: [gText] is that text. *)
Record GeminiMessage := mkGeminiMessage {
  gRole : string;
  gText : string
}.

(** How a promise stands when the timer it is raced against fires. *)
Inductive Settles (A : Type) : Type :=
| Resolves (a : A)
| Rejects (e : JsError)
| Pending.
Arguments Resolves {A} a.
Arguments Rejects {A} e.
Arguments Pending {A}.

(** [result.response.text()], a method call that may itself throw. *)
Record GenerateContentResult := mkGenerateContentResult {
  responseText : Result string
}.

(** The answers of the outside, by number of the call. *)
Record Outside := mkOutside {
  random : nat -> Q;
  axiosGenerate : nat -> GenerateRequest -> Result (AxiosResponse GenerateData);
  axiosEmbeddings :
    nat -> EmbeddingsRequest -> Result (AxiosResponse EmbeddingsData);
  (** [geminiModel.generateContent({ contents })] seen at the deadline *)
  generateContent :
    nat -> string -> list GeminiMessage -> Z -> Settles GenerateContentResult;
  (** [embeddingModel.embedContent(...)]: [embedding.values] *)
  embedContent : nat -> string -> string -> Result (list Q)
}.

End Net.
Export Net.

(** ** The Ollama adapter

    [makeOllamaLlm] / [makeOllamaEmbedder] (the two stand-alone files) and
    [OllamaProvider] (the provider class) hold the same code; they differ in
    how the constants are read from the options. *)

Module Ollama.
Section Adapter.
Variable out : Outside.

(** The [for] loop that turns the messages into a prompt. *)
Definition promptOf (messages : list Message) : string :=
  fold_left
    (fun prompt message =>
       if String.eqb (role message) "system" then
         prompt ++ "System: " ++ content message ++ nlnl
       else if String.eqb (role message) "user" then
         prompt ++ "User: " ++ content message ++ nlnl
       else if String.eqb (role message) "assistant" then
         prompt ++ "Assistant: " ++ content message ++ nlnl
       else prompt)
    messages "" ++ "Assistant: ".

(** [error.code === 'ECONNABORTED' ||
     (error.message && error.message.includes('timeout'))] *)
Definition isTimeout (error : JsError) : bool :=
  match errCode error with
  | Some c => String.eqb c "ECONNABORTED"
  | None => false
  end
  || match errMessage error with
     | Some m => truthyStr (Some m) && includes "timeout" m
     | None => false
     end.

(** The arguments of the POST to [/api/generate]. *)
Definition generateRequest (baseUrl model : string) (timeout : Z)
  (prompt : string) : GenerateRequest :=
  {| genUrl := baseUrl ++ "/api/generate"; genModel := model;
     genPrompt := prompt; genStream := false; genTimeout := timeout |}.

(** [answerQuestionAwaited], with the constants of its closure. *)
Definition answerQuestionAwaitedWith (baseUrl model : string) (timeout : Z)
  (messages : list Message) : M ChatResult :=
  tryCatch
    (consoleLog ("Using Ollama model: " ++ model) ;;;
     let prompt := promptOf messages in
     consoleLog ("Sending prompt to Ollama: " ++ substring 0 100 prompt ++ "...") ;;;
     response <- invoke (fun i =>
         axiosGenerate out i (generateRequest baseUrl model timeout prompt)) ;;
     match data response with
     | Some d => ret {| resRole := "assistant"; resContent := dataResponse d |}
     | None => throw (typeError "response")
     end)%js
    (fun error =>
       (consoleErrorWith "Error calling Ollama:" error ;;;
        if isTimeout error then
          consoleError "Ollama API call timed out" ;;;
          ret {| resRole := "assistant"; resContent := timeoutApology |}
        else
          ret {| resRole := "assistant"; resContent := technicalApology |})%js).

(** ollamaLlm.ts: the timeout is the literal 60000. *)
Definition makeOllamaLlm (baseUrl model : string) : ChatLlm :=
  {| answerQuestionAwaited := answerQuestionAwaitedWith baseUrl model 60000;
     answerQuestionStream :=
       streamOf (answerQuestionAwaitedWith baseUrl model 60000) |}.

(** [OllamaProvider.createChatLlm] *)
Definition createChatLlm (config : LlmProviderConfig) : M ChatLlm :=
  let baseUrl := orStr (baseUrl config) "http://localhost:11434" in
  let model := orStr (model config) "llama3" in
  let timeout := orNum (timeout config) 60000 in
  ret {| answerQuestionAwaited := answerQuestionAwaitedWith baseUrl model timeout;
         answerQuestionStream :=
           streamOf (answerQuestionAwaitedWith baseUrl model timeout) |}.

Definition missingEmbedding : JsError :=
  newError "Invalid response from Ollama API: missing embedding".

(** The arrow function handed to [withBackoff] in [embedText]: one POST,
    then the check of the reply.  [i] is the number of the call. *)
Definition embedAttempt (baseUrl model text : string) (i : nat)
  : Result (list Q) :=
  match axiosEmbeddings out i
          {| embUrl := baseUrl ++ "/api/embeddings"; embModel := model;
             embPrompt := text |} with
  | Throw e => Throw e
  | Ok response =>
    match data response with
    | None => Throw missingEmbedding
    | Some d =>
      match dataEmbedding d with
      | None => Throw missingEmbedding
      | Some emb => Ok emb
      end
    end
  end.

Definition embedText (numOfAttempts maxDelay startingDelay : Z)
  (baseUrl model text : string) : World -> option (Result (list Q) * World) :=
  Backoff.withBackoff numOfAttempts maxDelay startingDelay (random out)
    (embedAttempt baseUrl model text).

(** [embed]: [{ embedding: await embedText(text) }] *)
Definition embedWith (numOfAttempts maxDelay startingDelay : Z)
  (baseUrl model text : string) (w : World)
  : option (Result EmbedResult * World) :=
  match embedText numOfAttempts maxDelay startingDelay baseUrl model text w with
  | Some (r, w') => Some (mapResult mkEmbedResult r, w')
  | None => None
  end.

(** [OllamaEmbedderOptions] and its [backoffOptions] *)
Record BackoffOptions := mkBackoffOptions {
  boNumOfAttempts : option Z;
  boMaxDelay : option Z;
  boStartingDelay : option Z
}.
Record OllamaEmbedderOptions := mkOptions {
  optBaseUrl : option string;
  optModel : option string;
  optBackoffOptions : option BackoffOptions
}.

(** ollamaEmbedder.ts.  The destructuring defaults apply to a missing field
    only; the three [||] that follow also replace a zero. *)
Definition makeOllamaEmbedder (options : OllamaEmbedderOptions) : Embedder :=
  let baseUrl := default "http://localhost:11434" (optBaseUrl options) in
  let model := default "nomic-embed-text" (optModel options) in
  let backoffOptions :=
    default {| boNumOfAttempts := Some 3%Z; boMaxDelay := Some 5000%Z;
               boStartingDelay := Some 1000%Z |}
            (optBackoffOptions options) in
  let numOfAttempts := orNum (boNumOfAttempts backoffOptions) 3 in
  let maxDelay := orNum (boMaxDelay backoffOptions) 5000 in
  let startingDelay := orNum (boStartingDelay backoffOptions) 1000 in
  {| embed := embedWith numOfAttempts maxDelay startingDelay baseUrl model |}.

(** The three constants [OllamaProvider.createEmbedder] reads for its
    [withBackoff]: [numOfAttempts], [maxDelay], [startingDelay]. *)
Definition backoffConstants (config : LlmProviderConfig) : Z * Z * Z :=
  (orNum (numOfAttempts config) 3,
   orNum (maxDelay config) 5000,
   orNum (startingDelay config) 1000).

(** [OllamaProvider.createEmbedder] *)
Definition createEmbedder (config : LlmProviderConfig) : M Embedder :=
  let baseUrl := orStr (baseUrl config) "http://localhost:11434" in
  let model := orStr (embeddingModel config) "nomic-embed-text" in
  let '(numOfAttempts, maxDelay, startingDelay) := backoffConstants config in
  ret {| embed := embedWith numOfAttempts maxDelay startingDelay baseUrl model |}.

End Adapter.
End Ollama.

(** ** The Gemini adapter ([GeminiProvider]) *)

Module Gemini.
Section Adapter.
Variable out : Outside.

(** Gemini says [model] where the others say [assistant]. *)
Definition toGemini (msg : Message) : GeminiMessage :=
  {| gRole := if String.eqb (role msg) "assistant" then "model" else role msg;
     gText := content msg |}.

(** [xs.findIndex(p)]; [None] is the source's [-1]. *)
Definition findIndex {A} (P : A -> Prop) `{forall x, Decision (P x)}
  (xs : list A) : option nat :=
  fst <$> list_find P xs.

Definition systemInstructions (systemContent userContent : string) : string :=
  "[System Instructions: " ++ systemContent ++ "]" ++ nlnl ++ userContent.

(** The Message Normalizer: from [messages] to the [chatMessages] sent to
    Gemini.  In the source [chatMessages] is the array [nonSystemMessages]
    itself and the assignment to [parts[0].text] changes the object that
    array holds, so the request carries the merged text: the update below is
    that assignment.  Reading past the end of the array would raise a
    [TypeError]. *)
Definition chatMessagesOf (messages : list Message)
  : Result (list GeminiMessage) :=
  let geminiMessages := toGemini <$> messages in
  let systemMessages := filter (fun msg => gRole msg = "system") geminiMessages in
  let nonSystemMessages :=
    filter (fun msg => gRole msg <> "system") geminiMessages in
  if (0 <? length systemMessages)%nat && (0 <? length nonSystemMessages)%nat
  then
    match findIndex (fun msg => gRole msg = "user") nonSystemMessages with
    | Some firstUserMessageIndex =>
      let systemContent := join nlnl (gText <$> systemMessages) in
      match nonSystemMessages !! firstUserMessageIndex with
      | Some firstUser =>
        let userContent := gText firstUser in
        Ok (<[firstUserMessageIndex :=
                {| gRole := gRole firstUser;
                   gText := systemInstructions systemContent userContent |}]>
              nonSystemMessages)
      | None => Throw (typeError "parts")
      end
    | None => Ok nonSystemMessages
    end
  else Ok nonSystemMessages.

Definition timedOut : JsError := newError "Gemini API call timed out".

(** [Promise.race([resultPromise, timeoutPromise])]: the request if it has
    settled when the timer fires, the timer's rejection otherwise. *)
Definition race {A} (s : Settles A) : Result A :=
  match s with
  | Resolves a => Ok a
  | Rejects e => Throw e
  | Pending => Throw timedOut
  end.

(** [error.message && error.message.includes('timed out')] *)
Definition isTimeout (error : JsError) : bool :=
  match errMessage error with
  | Some m => truthyStr (Some m) && includes "timed out" m
  | None => false
  end.

(** [answerQuestionAwaited], with the constants of its closure. *)
Definition answerQuestionAwaitedWith (model : string) (timeout : Z)
  (messages : list Message) : M ChatResult :=
  tryCatch
    (consoleLog ("Using Gemini model: " ++ model) ;;;
     chatMessages <- liftResult (chatMessagesOf messages) ;;
     consoleLog ("Sending " ++ pretty (length chatMessages)
                   ++ " messages to Gemini") ;;;
     emit (Deadline timeout) ;;;
     result <- invoke (fun i =>
         race (generateContent out i model chatMessages timeout)) ;;
     text <- liftResult (responseText result) ;;
     ret {| resRole := "assistant"; resContent := text |})%js
    (fun error =>
       (consoleErrorWith "Error calling Gemini:" error ;;;
        if isTimeout error then
          consoleError "Gemini API call timed out" ;;;
          ret {| resRole := "assistant"; resContent := timeoutApology |}
        else
          ret {| resRole := "assistant"; resContent := technicalApology |})%js).

Definition requiresAnApiKey : JsError :=
  newError "Gemini provider requires an API key".

(** [GeminiProvider.createChatLlm] *)
Definition createChatLlm (config : LlmProviderConfig) : M ChatLlm :=
  if negb (truthyStr (apiKey config)) then throw requiresAnApiKey
  else
    let model := orStr (model config) "gemini-2.0-flash-thinking-exp-01-21" in
    let timeout := orNum (timeout config) 60000 in
    ret {| answerQuestionAwaited := answerQuestionAwaitedWith model timeout;
           answerQuestionStream :=
             streamOf (answerQuestionAwaitedWith model timeout) |}.

(** [embed] of the Gemini embedder: a single call, no retry; a failure is
    wrapped in a new error and thrown again. *)
Definition embedWith (model text : string) : M EmbedResult :=
  tryCatch
    (consoleLog ("Generating embeddings with Gemini model: " ++ model) ;;;
     values <- invoke (fun i => embedContent out i model text) ;;
     consoleLog ("Generated embedding with " ++ pretty (length values)
                   ++ " dimensions") ;;;
     ret {| embedding := values |})%js
    (fun error =>
       (consoleErrorWith "Error generating embeddings with Gemini:" error ;;;
        throw (newError ("Failed to generate embeddings: "
                           ++ template (errMessage error))))%js).

(** [GeminiProvider.createEmbedder] *)
Definition createEmbedder (config : LlmProviderConfig) : M Embedder :=
  if negb (truthyStr (apiKey config)) then throw requiresAnApiKey
  else
    let model := orStr (embeddingModel config) "embedding-001" in
    ret {| embed := fun text w => Some (embedWith model text w) |}.

End Adapter.
End Gemini.

(** ** The provider registry (llmProviderFactory.ts) *)

Module Factory.

(** The two classes that implement [LlmProvider]. *)
Inductive LlmProvider : Type :=
| OllamaProvider
| GeminiProvider.

Definition getName (p : LlmProvider) : string :=
  match p with
  | OllamaProvider => "ollama"
  | GeminiProvider => "gemini"
  end.

Definition requiresApiKey (p : LlmProvider) : bool :=
  match p with
  | OllamaProvider => false
  | GeminiProvider => true
  end.

Definition providerCreateChatLlm (out : Outside) (p : LlmProvider)
  : LlmProviderConfig -> M ChatLlm :=
  match p with
  | OllamaProvider => Ollama.createChatLlm out
  | GeminiProvider => Gemini.createChatLlm out
  end.

Definition providerCreateEmbedder (out : Outside) (p : LlmProvider)
  : LlmProviderConfig -> M Embedder :=
  match p with
  | OllamaProvider => Ollama.createEmbedder out
  | GeminiProvider => Gemini.createEmbedder out
  end.

(** The object literal [providers]: its own properties, in insertion
    order, which is the order of [Object.keys]. *)
Definition providers : list (string * LlmProvider) :=
  [("ollama", OllamaProvider); ("gemini", GeminiProvider)].

Definition objectKeys {V} (obj : list (string * V)) : list string :=
  map fst obj.

(** [providers] is a plain object, so reading [providers[key]] also finds
    what it inherits from [Object.prototype]; these are that prototype's
    properties, each a function or an object, hence truthy. *)
Definition objectPrototypeKeys : list string :=
  ["constructor"; "__defineGetter__"; "__defineSetter__"; "hasOwnProperty";
   "__lookupGetter__"; "__lookupSetter__"; "isPrototypeOf";
   "propertyIsEnumerable"; "toString"; "valueOf"; "__proto__";
   "toLocaleString"].

(** What [providers[key]] evaluates to when it is not [undefined]. *)
Inductive Property : Type :=
| Own (p : LlmProvider)
| Inherited (key : string).

Fixpoint ownProperty {V} (obj : list (string * V)) (key : string) : option V :=
  match obj with
  | [] => None
  | (k, v) :: rest => if String.eqb k key then Some v else ownProperty rest key
  end.

(** [providers[key]]; [None] is [undefined]. *)
Definition getProperty (key : string) : option Property :=
  match ownProperty providers key with
  | Some p => Some (Own p)
  | None =>
    if existsb (String.eqb key) objectPrototypeKeys then Some (Inherited key)
    else None
  end.

Definition notFoundMessage (providerName : string) : string :=
  "LLM provider '" ++ providerName ++ "' not found. Available providers: "
    ++ join ", " (objectKeys providers).

(** [getLlmProvider] *)
Definition getLlmProvider (providerName : string) : Result Property :=
  match getProperty (toLowerCase providerName) with
  | None => Throw (newError (notFoundMessage providerName))
  | Some provider => Ok provider
  end.

Definition notAFunction (method : string) : JsError :=
  newError ("provider." ++ method ++ " is not a function").

(** [createChatLlm(providerName, config)] *)
Definition createChatLlm (out : Outside) (providerName : string)
  (config : LlmProviderConfig) : M ChatLlm :=
  match getLlmProvider providerName with
  | Throw e => throw e
  | Ok (Own provider) => providerCreateChatLlm out provider config
  | Ok (Inherited _) => throw (notAFunction "createChatLlm")
  end.

(** [createEmbedder(providerName, config)] *)
Definition createEmbedder (out : Outside) (providerName : string)
  (config : LlmProviderConfig) : M Embedder :=
  match getLlmProvider providerName with
  | Throw e => throw e
  | Ok (Own provider) => providerCreateEmbedder out provider config
  | Ok (Inherited _) => throw (notAFunction "createEmbedder")
  end.

End Factory.

(** ** Construction followed by a call *)

(** [create(config).answerQuestionAwaited({ messages })] *)
Definition constructThenChat (create : M ChatLlm) (messages : list Message)
  : M ChatResult :=
  (llm <- create ;; answerQuestionAwaited llm messages)%js.

(** [create(config).embed({ text })] *)
Definition constructThenEmbed (create : M Embedder) (text : string) (w : World)
  : option (Result EmbedResult * World) :=
  match create w with
  | (Ok embedder, w') => embed embedder text w'
  | (Throw e, w') => Some (Throw e, w')
  end.

(** ** Vocabulary of the specification *)

Module Spec.

(** The delays the loop of [withBackoff] goes through in [k] rounds, from
    the value [delay] of its variable: each the double of the one before,
    capped. *)
Fixpoint nextDelays (maxDelay : Z) (k : nat) (delay : Z) : list Z :=
  match k with
  | O => []
  | S k' =>
    let delay' := Z.min (delay * 2) maxDelay in
    delay' :: nextDelays maxDelay k' delay'
  end.

(** The base delay before attempt [k] (attempts numbered from 1, so [k >= 2])
    in a finished run: the timer armed before that attempt. *)
Definition baseDelayBefore (k : nat) (w : World) : option Z :=
  baseDelays w !! (k - 2)%nat.

(** The base delay before attempt [k] in the words of the specification:
    [min(startingDelay * 2^(k-2), maxDelay)]. *)
Definition specBaseDelay (startingDelay maxDelay : Z) (k : nat) : Z :=
  Z.min (startingDelay * 2 ^ (Z.of_nat k - 2)) maxDelay.

(** The backend of the chat calls fails at call number [i]: the POST of
    Ollama is rejected, the request of Gemini is rejected or still pending
    at the deadline. *)
Definition chatBackendFails (out : Outside) (i : nat) : Prop :=
  (forall req, isOk (axiosGenerate out i req) = false) /\
  (forall model contents timeout,
      isOk (Gemini.race (generateContent out i model contents timeout)) = false).

(** The POST of an Ollama chat call is rejected with [e] at call number [i]. *)
Definition ollamaFailsWith (out : Outside) (i : nat) (e : JsError) : Prop :=
  forall req, axiosGenerate out i req = Throw e.

(** The request of a Gemini chat call loses or fails its race at call number
    [i], and [e] is what the race rejects with. *)
Definition geminiFailsWith (out : Outside) (i : nat) (e : JsError) : Prop :=
  forall model contents timeout,
    Gemini.race (generateContent out i model contents timeout) = Throw e.

(** A well-formed degraded answer: an assistant turn that carries one of the
    two apologies, which are not empty. *)
Definition isApology (r : ChatResult) : Prop :=
  resRole r = "assistant"
  /\ resContent r <> ""
  /\ (resContent r = timeoutApology \/ resContent r = technicalApology).

(** The backend of the embed calls fails at every call. *)
Definition embedBackendAlwaysFails (out : Outside) : Prop :=
  (forall i req, isOk (axiosEmbeddings out i req) = false) /\
  (forall i model text, isOk (embedContent out i model text) = false).

(** The degraded answer of a chat call, by kind of failure. *)
Definition apologyFor (isTimeout : bool) : ChatResult :=
  {| resRole := "assistant";
     resContent := if isTimeout then timeoutApology else technicalApology |}.

(** [needle] occurs in [haystack]. *)
Definition occursIn (needle haystack : string) : Prop :=
  exists before after, haystack = before ++ needle ++ after.

End Spec.
Export Spec.

(** ** Worlds to run the adapters in *)

Module Fixtures.

Definition networkError : JsError :=
  {| errCode := Some "ERR_NETWORK"; errMessage := Some "Network Error" |}.

Definition axiosTimeout : JsError :=
  {| errCode := Some "ECONNABORTED";
     errMessage := Some "timeout of 60000ms exceeded" |}.

(** an operation whose i-th invocation fails with an error that names [i] *)
Definition failsWithIndex (i : nat) : JsError := newError (pretty i).

Definition noJitter : nat -> Q := fun _ => 0%Q.

(** every call is rejected with a network error *)
Definition alwaysDown : Outside :=
  {| random := noJitter;
     axiosGenerate := fun _ _ => Throw networkError;
     axiosEmbeddings := fun _ _ => Throw networkError;
     generateContent := fun _ _ _ _ => Rejects networkError;
     embedContent := fun _ _ _ => Throw networkError |}.

(** every call runs into its timeout *)
Definition timesOut : Outside :=
  {| random := noJitter;
     axiosGenerate := fun _ _ => Throw axiosTimeout;
     axiosEmbeddings := fun _ _ => Throw axiosTimeout;
     generateContent := fun _ _ _ _ => Pending;
     embedContent := fun _ _ _ => Throw axiosTimeout |}.

(** every call is answered *)
Definition alwaysUp : Outside :=
  {| random := noJitter;
     axiosGenerate := fun _ _ =>
       Ok {| data := Some {| dataResponse := "Hello" |} |};
     axiosEmbeddings := fun _ _ =>
       Ok {| data := Some {| dataEmbedding := Some [1%Q; 2%Q] |} |};
     generateContent := fun _ _ _ _ =>
       Resolves {| responseText := Ok "Hello" |};
     embedContent := fun _ _ _ => Ok [1%Q; 2%Q] |}.

(** a configuration that asks for minus one attempt *)
Definition negativeAttempts : LlmProviderConfig :=
  {| apiKey := None; baseUrl := None; model := None; embeddingModel := None;
     timeout := None; numOfAttempts := Some (-1)%Z; maxDelay := None;
     startingDelay := None |}.

(** a configuration with zero for each of the three backoff constants *)
Definition zeroBackoff : LlmProviderConfig :=
  {| apiKey := None; baseUrl := None; model := None; embeddingModel := None;
     timeout := None; numOfAttempts := Some 0%Z; maxDelay := Some 0%Z;
     startingDelay := Some 0%Z |}.

Definition systemThenUser : list Message :=
  [ {| role := "system"; content := "A" |};
    {| role := "user"; content := "B" |} ].

Definition systemOnly : list Message :=
  [ {| role := "system"; content := "A" |};
    {| role := "assistant"; content := "C" |} ].

End Fixtures.
Export Fixtures.

(** ** The Streaming Shim, as the iterator the source builds

    [answerQuestionStream] awaits the whole answer and wraps it in an object
    whose [Symbol.asyncIterator] method makes, at each call, a new iterator
    with its own variable [done]. *)

Module Shim.

(** The chunk [{ choices: [{ delta: { content } }] }]. *)
Record Delta := mkDelta { deltaContent : string }.
Record Choice := mkChoice { delta : Delta }.
Record StreamChunk := mkStreamChunk { choices : list Choice }.

(** What [next()] resolves to: [{ done: false, value }] or
    [{ done: true, value: undefined }]. *)
Inductive IteratorResult : Type :=
| Yielded (value : StreamChunk)
| Finished.

(** An iterator: the [response] its closure holds and its variable [done]. *)
Record Iterator := mkIterator {
  itResponse : ChatResult;
  itDone : bool
}.

(** [next()] *)
Definition next (it : Iterator) : IteratorResult * Iterator :=
  if itDone it then (Finished, it)
  else
    (Yielded {| choices :=
                  [ {| delta := {| deltaContent := resContent (itResponse it) |} |} ] |},
     {| itResponse := itResponse it; itDone := true |}).

(** The object [asyncIterable]; its closure holds [response]. *)
Record AsyncIterable := mkAsyncIterable {
  iterableResponse : ChatResult
}.

(** [asyncIterable[Symbol.asyncIterator]()] *)
Definition asyncIterator (stream : AsyncIterable) : Iterator :=
  {| itResponse := iterableResponse stream; itDone := false |}.

(** [answerQuestionStream], over the [answerQuestionAwaited] of the same
    object. *)
Definition answerQuestionStream (awaited : list Message -> M ChatResult)
  (messages : list Message) : M AsyncIterable :=
  (response <- awaited messages ;; ret {| iterableResponse := response |})%js.

(** [for await (const chunk of ...)] from an iterator: the chunks it yields
    until it is finished.  [None] means that the fuel ran out. *)
Fixpoint drain (fuel : nat) (it : Iterator) : option (list StreamChunk) :=
  match fuel with
  | O => None
  | S fuel' =>
    match next it with
    | (Finished, _) => Some []
    | (Yielded chunk, it') =>
      match drain fuel' it' with
      | Some chunks => Some (chunk :: chunks)
      | None => None
      end
    end
  end.

(** [for await (const chunk of stream)] *)
Definition forAwait (fuel : nat) (stream : AsyncIterable)
  : option (list StreamChunk) :=
  drain fuel (asyncIterator stream).

(** [chunk.choices[0].delta.content]; [None] when there is no choice. *)
Definition chunkContent (chunk : StreamChunk) : option string :=
  match choices chunk with
  | choice :: _ => Some (deltaContent (delta choice))
  | [] => None
  end.

End Shim.

(** ** The environment (loadEnvVars.ts) *)

Module Env.

(** The white space [parseInt] skips, as far as it is ASCII: tab, line feed,
    vertical tab, form feed, carriage return, space. *)
Definition isWhiteSpace (c : ascii) : bool :=
  let n := nat_of_ascii c in
  ((9 <=? n)%nat && (n <=? 13)%nat) || (n =? 32)%nat.

(** The value of a decimal digit. *)
Definition digitOf (c : ascii) : option Z :=
  let n := nat_of_ascii c in
  if (48 <=? n)%nat && (n <=? 57)%nat then Some (Z.of_nat (n - 48)) else None.

Fixpoint trimStart (s : string) : string :=
  match s with
  | String c rest => if isWhiteSpace c then trimStart rest else s
  | EmptyString => EmptyString
  end.

(** The number written by the longest prefix of digits; [acc] is the number
    read so far, [None] when no digit was read yet. *)
Fixpoint digitsPrefix (acc : option Z) (s : string) : option Z :=
  match s with
  | String c rest =>
    match digitOf c with
    | Some d => digitsPrefix (Some (10 * default 0%Z acc + d)%Z) rest
    | None => acc
    end
  | EmptyString => acc
  end.

(** [parseInt(s, 10)]; [None] is [NaN].  Two idealisations: the number is
    the exact integer the digits write, where the source rounds it to a
    double once it passes 2^53; and only the ASCII white space is skipped,
    where the source also skips the Unicode one.  No property below rests
    on the value read from a text other than "60000". *)
Definition parseInt10 (s : string) : option Z :=
  match trimStart s with
  | String "-" rest => Z.opp <$> digitsPrefix None rest
  | String "+" rest => digitsPrefix None rest
  | trimmed => digitsPrefix None trimmed
  end.

(** What [loadEnvVars] returns. *)
Record EnvVars := mkEnvVars {
  MONGODB_CONNECTION_URI : string;
  MONGODB_DATABASE_NAME : string;
  VECTOR_SEARCH_INDEX_NAME : string;
  LLM_PROVIDER : string;
  OLLAMA_BASE_URL : string;
  OLLAMA_EMBEDDING_MODEL : string;
  OLLAMA_CHAT_MODEL : string;
  GEMINI_API_KEY : option string;
  GEMINI_CHAT_MODEL : string;
  GEMINI_EMBEDDING_MODEL : string;
  LLM_TIMEOUT_MS : option Z
}.

(** The [AssertionError] of [assert(value, message)]. *)
Definition assertionError (message : string) : JsError :=
  {| errCode := Some "ERR_ASSERTION"; errMessage := Some message |}.

(** [assert(value, message)] on a variable that may be missing: the value
    when it is truthy. *)
Definition assertVar (value : option string) (message : string)
  : Result string :=
  match value with
  | Some v => if String.eqb v "" then Throw (assertionError message) else Ok v
  | None => Throw (assertionError message)
  end.

Definition andThen {A B} (r : Result A) (k : A -> Result B) : Result B :=
  match r with
  | Ok a => k a
  | Throw e => Throw e
  end.

(** [loadEnvVars(path)].  [process.env] is emptied first and then filled by
    dotenv, so it holds what the file at [path] defines: [env]. *)
Definition loadEnvVars (env : gmap string string) : Result EnvVars :=
  let LLM_PROVIDER := default "ollama" (env !! "LLM_PROVIDER") in
  let OLLAMA_BASE_URL :=
    default "http://localhost:11434" (env !! "OLLAMA_BASE_URL") in
  let OLLAMA_EMBEDDING_MODEL :=
    default "nomic-embed-text" (env !! "OLLAMA_EMBEDDING_MODEL") in
  let OLLAMA_CHAT_MODEL := default "llama3" (env !! "OLLAMA_CHAT_MODEL") in
  let GEMINI_API_KEY := env !! "GEMINI_API_KEY" in
  let GEMINI_CHAT_MODEL := default "gemini-pro" (env !! "GEMINI_CHAT_MODEL") in
  let GEMINI_EMBEDDING_MODEL :=
    default "embedding-001" (env !! "GEMINI_EMBEDDING_MODEL") in
  let LLM_TIMEOUT_MS := default "60000" (env !! "LLM_TIMEOUT_MS") in
  andThen (assertVar (env !! "MONGODB_CONNECTION_URI")
             "MONGODB_CONNECTION_URI is required") (fun uri =>
  andThen (assertVar (env !! "MONGODB_DATABASE_NAME")
             "MONGODB_DATABASE_NAME is required") (fun database =>
  andThen (assertVar (env !! "VECTOR_SEARCH_INDEX_NAME")
             "VECTOR_SEARCH_INDEX_NAME is required") (fun index =>
  andThen
    (if String.eqb (toLowerCase LLM_PROVIDER) "ollama" then
       andThen (assertVar (Some OLLAMA_BASE_URL)
                  "OLLAMA_BASE_URL is required when using Ollama provider")
         (fun _ =>
       andThen (assertVar (Some OLLAMA_EMBEDDING_MODEL)
                  "OLLAMA_EMBEDDING_MODEL is required when using Ollama provider")
         (fun _ => Ok tt))
     else if String.eqb (toLowerCase LLM_PROVIDER) "gemini" then
       andThen (assertVar GEMINI_API_KEY
                  "GEMINI_API_KEY is required when using Gemini provider")
         (fun _ => Ok tt)
     else Ok tt) (fun _ =>
  Ok {| MONGODB_CONNECTION_URI := uri;
        MONGODB_DATABASE_NAME := database;
        VECTOR_SEARCH_INDEX_NAME := index;
        LLM_PROVIDER := LLM_PROVIDER;
        OLLAMA_BASE_URL := OLLAMA_BASE_URL;
        OLLAMA_EMBEDDING_MODEL := OLLAMA_EMBEDDING_MODEL;
        OLLAMA_CHAT_MODEL := OLLAMA_CHAT_MODEL;
        GEMINI_API_KEY := GEMINI_API_KEY;
        GEMINI_CHAT_MODEL := GEMINI_CHAT_MODEL;
        GEMINI_EMBEDDING_MODEL := GEMINI_EMBEDDING_MODEL;
        LLM_TIMEOUT_MS := parseInt10 LLM_TIMEOUT_MS |})))).

End Env.

(** ** The embedder of the ingest configuration

    The [embedder] entry of the default export that follows
    [makeOllamaEmbedder] in the sources; the values it uses are the ones its
    own [loadEnvVars] hands over, taken here as they come. *)

Module Ingest.

Record IngestEnv := mkIngestEnv {
  LLM_PROVIDER : string;
  OLLAMA_BASE_URL : option string;
  OLLAMA_EMBEDDING_MODEL : option string;
  GEMINI_API_KEY : option string;
  GEMINI_EMBEDDING_MODEL : option string;
  LLM_TIMEOUT_MS : option Z
}.

(** [{ ...config, embeddingModel: value }]: a property written in an object
    literal, replacing an earlier one of the same name. *)
Definition withEmbeddingModel (value : option string)
  (config : LlmProviderConfig) : LlmProviderConfig :=
  {| apiKey := apiKey config; baseUrl := baseUrl config; model := model config;
     embeddingModel := value; timeout := timeout config;
     numOfAttempts := numOfAttempts config; maxDelay := maxDelay config;
     startingDelay := startingDelay config |}.

(** The object literal handed to [createEmbedder].  It names
    [embeddingModel] twice, first with the Ollama model and then with the
    Gemini model; the properties are written in the order of the literal. *)
Definition embedderConfig (v : IngestEnv) : LlmProviderConfig :=
  withEmbeddingModel (GEMINI_EMBEDDING_MODEL v)
    {| apiKey := GEMINI_API_KEY v;
       baseUrl := OLLAMA_BASE_URL v;
       model := None;
       embeddingModel := OLLAMA_EMBEDDING_MODEL v;
       timeout := LLM_TIMEOUT_MS v;
       numOfAttempts := Some 25%Z;
       maxDelay := None;
       startingDelay := Some 1000%Z |}.

(** [embedder: async () => { console.log(...); return createEmbedder(...) }] *)
Definition embedder (out : Outside) (v : IngestEnv) : M Embedder :=
  (consoleLog ("Using " ++ LLM_PROVIDER v ++ " provider for embeddings") ;;;
   Factory.createEmbedder out (LLM_PROVIDER v) (embedderConfig v))%js.

End Ingest.

(** ** More vocabulary *)

Module Vocabulary.

(** The label the prompt of Ollama gives to a role; [None] for a role that
    the loop passes over. *)
Definition promptLabel (r : string) : option string :=
  if String.eqb r "system" then Some "System"
  else if String.eqb r "user" then Some "User"
  else if String.eqb r "assistant" then Some "Assistant"
  else None.

(** One turn of the prompt. *)
Definition renderTurn (m : Message) : string :=
  match promptLabel (role m) with
  | Some label => label ++ ": " ++ content m ++ nlnl
  | None => ""
  end.

(** The turns of a conversation, one after the other. *)
Definition promptBody (messages : list Message) : string :=
  String.concat "" (renderTurn <$> messages).

(** What a timer of [withBackoff] must satisfy: a base delay between zero and
    the cap, and a jitter between zero and a tenth of the base delay. *)
Definition timerWithinBounds (maxDelay : Z) (ev : Event) : Prop :=
  match ev with
  | SetTimeout delay jitter =>
    (0 <= delay <= maxDelay)%Z
    /\ (0 <= jitter)%Q /\ (jitter <= (1 # 10) * inject_Z delay)%Q
  | _ => True
  end.

(** The events a run added to those of the world it started from. *)
Definition eventsAdded (w w' : World) (added : list Event) : Prop :=
  events w' = (events w ++ added)%list.

(** The request of an Ollama embed call. *)
Definition embeddingsRequest (baseUrl model text : string)
  : EmbeddingsRequest :=
  {| embUrl := baseUrl ++ "/api/embeddings"; embModel := model;
     embPrompt := text |}.

(** The [numOfAttempts] that [makeOllamaEmbedder] ends up with: the
    [backoffOptions] of the options, or the default object when they are
    missing, and then [|| 3]. *)
Definition standaloneAttempts (options : Ollama.OllamaEmbedderOptions) : Z :=
  orNum (Ollama.boNumOfAttempts
           (default {| Ollama.boNumOfAttempts := Some 3%Z;
                       Ollama.boMaxDelay := Some 5000%Z;
                       Ollama.boStartingDelay := Some 1000%Z |}
                    (Ollama.optBackoffOptions options))) 3.

(** Everything [loadEnvVars] returns but the timeout. *)
Definition withoutTimeout (v : Env.EnvVars)
  : string * string * string * string * string * string * string
    * option string * string * string :=
  (Env.MONGODB_CONNECTION_URI v, Env.MONGODB_DATABASE_NAME v,
   Env.VECTOR_SEARCH_INDEX_NAME v, Env.LLM_PROVIDER v, Env.OLLAMA_BASE_URL v,
   Env.OLLAMA_EMBEDDING_MODEL v, Env.OLLAMA_CHAT_MODEL v, Env.GEMINI_API_KEY v,
   Env.GEMINI_CHAT_MODEL v, Env.GEMINI_EMBEDDING_MODEL v).

(** An environment file with what [loadEnvVars] insists on. *)
Definition mongoOnly : gmap string string :=
  {[ "MONGODB_CONNECTION_URI" := "mongodb://localhost";
     "MONGODB_DATABASE_NAME" := "cookbook";
     "VECTOR_SEARCH_INDEX_NAME" := "vector_index" ]}.

(** An Outside whose embeddings endpoint fails twice and then answers. *)
Definition upAtThird : Outside :=
  {| random := noJitter;
     axiosGenerate := fun _ _ => Throw networkError;
     axiosEmbeddings := fun i _ =>
       if (i <? 2)%nat then Throw networkError
       else Ok {| data := Some {| dataEmbedding := Some [1%Q; 2%Q] |} |};
     generateContent := fun _ _ _ _ => Rejects networkError;
     embedContent := fun _ _ _ => Throw networkError |}.

(** An Outside whose embeddings endpoint answers without an embedding. *)
Definition noEmbedding : Outside :=
  {| random := noJitter;
     axiosGenerate := fun _ _ => Ok {| data := None |};
     axiosEmbeddings := fun _ _ =>
       Ok {| data := Some {| dataEmbedding := None |} |};
     generateContent := fun _ _ _ _ =>
       Resolves {| responseText := Throw networkError |};
     embedContent := fun _ _ _ => Ok [] |}.

Definition customOptions : Ollama.OllamaEmbedderOptions :=
  {| Ollama.optBaseUrl := Some "http://ollama:11434";
     Ollama.optModel := None;
     Ollama.optBackoffOptions :=
       Some {| Ollama.boNumOfAttempts := Some 0%Z;
               Ollama.boMaxDelay := None;
               Ollama.boStartingDelay := Some 500%Z |} |}.

Definition geminiConfig : LlmProviderConfig :=
  {| apiKey := Some "key"; baseUrl := None; model := None;
     embeddingModel := None; timeout := None; numOfAttempts := None;
     maxDelay := None; startingDelay := None |}.

Definition ollamaIngest : Ingest.IngestEnv :=
  {| Ingest.LLM_PROVIDER := "Ollama";
     Ingest.OLLAMA_BASE_URL := Some "http://ollama:11434";
     Ingest.OLLAMA_EMBEDDING_MODEL := Some "nomic-embed-text";
     Ingest.GEMINI_API_KEY := None;
     Ingest.GEMINI_EMBEDDING_MODEL := Some "embedding-001";
     Ingest.LLM_TIMEOUT_MS := Some 60000%Z |}.

End Vocabulary.
Export Vocabulary.

(** * Properties *)

(** ** The monad and the strings *)

Lemma pause_runs (n : Z) (random : nat -> Q) (attempt delay : Z) (w : World) :
  exists w',
    Backoff.pause n random attempt delay w = (Ok tt, w')
    /\ calls w' = calls w
    /\ draws w' = S (draws w)
    /\ baseDelays w' = (baseDelays w ++ [delay])%list.
Proof.
  exists (snd (Backoff.pause n random attempt delay w)).
  split; [reflexivity|]. cbn. repeat split.
  unfold baseDelays. cbn.
  rewrite <- app_assoc, omap_app. cbn. reflexivity.
Qed.

(** ** The Backoff Executor *)

Section BackoffFacts.
Context {T : Type}.
Variables (n maxDelay : Z) (random : nat -> Q) (fn : nat -> Result T).

Local Abbreviation loop := (Backoff.loop n maxDelay random fn).

(** The loop stops before the fuel does. *)
Lemma loop_total (fuel : nat) :
  forall (attempt delay : Z) (w : World),
    (Z.to_nat (n - attempt) < fuel)%nat ->
    exists r w', loop fuel attempt delay w = Some (r, w').
Proof.
  induction fuel as [|fuel IH]; intros attempt delay w Hfuel; [lia|].
  cbn [Backoff.loop].
  destruct (attempt <? n)%Z eqn:Hlt; [|eauto].
  apply Z.ltb_lt in Hlt.
  unfold invoke. destruct (fn (calls w)) as [v|e]; [eauto|].
  destruct (attempt + 1 >=? n)%Z eqn:Hge; [eauto|].
  rewrite Z.geb_leb in Hge. apply Z.leb_gt in Hge.
  match goal with |- context [Backoff.pause ?a ?b ?c ?d ?w0] =>
    destruct (pause_runs a b c d w0) as (w2 & -> & _) end.
  apply IH. lia.
Qed.

(** When the loop is entered, what it returns is what the last invocation of
    the operation returned, and there is such an invocation. *)
Lemma loop_last_outcome (fuel : nat) :
  forall (attempt delay : Z) (w : World),
    (attempt < n)%Z ->
    (Z.to_nat (n - attempt) < fuel)%nat ->
    exists w',
      loop fuel attempt delay w = Some (fn (calls w' - 1), w')
      /\ (calls w < calls w')%nat.
Proof.
  induction fuel as [|fuel IH]; intros attempt delay w Hlt Hfuel; [lia|].
  cbn [Backoff.loop].
  destruct (attempt <? n)%Z eqn:Hltb; [|apply Z.ltb_ge in Hltb; lia].
  unfold invoke. destruct (fn (calls w)) as [v|e] eqn:Hfn.
  - exists {| calls := S (calls w); draws := draws w; events := events w |}.
    cbn. rewrite Nat.sub_0_r, Hfn. split; [reflexivity|lia].
  - destruct (attempt + 1 >=? n)%Z eqn:Hge.
    + exists {| calls := S (calls w); draws := draws w; events := events w |}.
      cbn. rewrite Nat.sub_0_r, Hfn. split; [reflexivity|lia].
    + rewrite Z.geb_leb in Hge. apply Z.leb_gt in Hge.
      match goal with |- context [Backoff.pause ?a ?b ?c ?d ?w0] =>
        destruct (pause_runs a b c d w0) as (w2 & -> & Hc & _) end.
      destruct (IH (attempt + 1)%Z (Z.min (delay * 2) maxDelay) w2)
        as (w' & -> & Hcalls); [lia|lia|].
      exists w'. split; [reflexivity|]. cbn in Hc. lia.
Qed.

(** When the loop is not entered, the trailing [throw] is what happens, and
    the operation is not invoked. *)
Lemma loop_not_entered (fuel : nat) (attempt delay : Z) (w : World) :
  (n <= attempt)%Z ->
  loop (S fuel) attempt delay w = Some (Throw Backoff.shouldNotReachHere, w).
Proof.
  intros Hge. cbn [Backoff.loop].
  destruct (attempt <? n)%Z eqn:Hltb; [apply Z.ltb_lt in Hltb; lia|reflexivity].
Qed.

(** A run against an operation that always fails: [k] more attempts are
    left, all are made, the error of the last one is thrown, and the timers
    armed on the way are the [k - 1] next delays. *)
Lemma loop_always_failing (err : nat -> JsError) :
  (forall i, fn i = Throw (err i)) ->
  forall (k fuel : nat) (attempt delay : Z) (w : World),
    Z.to_nat (n - attempt) = S k ->
    (S k < fuel)%nat ->
    exists w',
      loop fuel attempt delay w = Some (Throw (err (calls w + k)%nat), w')
      /\ calls w' = (calls w + S k)%nat
      /\ baseDelays w' = (baseDelays w ++ nextDelays maxDelay k delay)%list.
Proof.
  intros Hfail. induction k as [|k IH]; intros fuel attempt delay w Hk Hfuel.
  - destruct fuel as [|fuel]; [lia|]. cbn [Backoff.loop].
    destruct (attempt <? n)%Z eqn:Hltb; [|apply Z.ltb_ge in Hltb; lia].
    unfold invoke. rewrite Hfail.
    destruct (attempt + 1 >=? n)%Z eqn:Hge.
    + exists {| calls := S (calls w); draws := draws w; events := events w |}.
      rewrite Nat.add_0_r. split; [reflexivity|]. cbn.
      split; [lia|]. unfold baseDelays. cbn. now rewrite app_nil_r.
    + rewrite Z.geb_leb in Hge. apply Z.leb_gt in Hge. lia.
  - destruct fuel as [|fuel]; [lia|]. cbn [Backoff.loop].
    destruct (attempt <? n)%Z eqn:Hltb; [|apply Z.ltb_ge in Hltb; lia].
    unfold invoke. rewrite Hfail.
    destruct (attempt + 1 >=? n)%Z eqn:Hge.
    + rewrite Z.geb_leb in Hge. apply Z.leb_le in Hge. lia.
    + match goal with |- context [Backoff.pause ?a ?b ?c ?d ?w0] =>
        destruct (pause_runs a b c d w0) as (w2 & -> & Hc & _ & Hd) end.
      destruct (IH fuel (attempt + 1)%Z (Z.min (delay * 2) maxDelay) w2)
        as (w' & -> & Hcalls & Hdelays); [lia|lia|].
      exists w'. cbn in Hc. rewrite Hc in *.
      replace (calls w + S k)%nat with (S (calls w) + k)%nat by lia.
      split; [reflexivity|]. split; [lia|].
      rewrite Hdelays, Hd. cbn. now rewrite <- app_assoc.
Qed.

End BackoffFacts.

(** [withBackoff] always returns: its fuel is never exhausted. *)
Lemma withBackoff_total {T : Type} (n maxDelay startingDelay : Z)
  (random : nat -> Q) (fn : nat -> Result T) (w : World) :
  exists r w',
    Backoff.withBackoff n maxDelay startingDelay random fn w = Some (r, w').
Proof.
  unfold Backoff.withBackoff. apply loop_total.
  unfold Backoff.fuelFor. lia.
Qed.

(** With at least one attempt, it returns what the last invocation of the
    operation returned. *)
Lemma withBackoff_last_outcome {T : Type} (n maxDelay startingDelay : Z)
  (random : nat -> Q) (fn : nat -> Result T) (w : World) :
  (1 <= n)%Z ->
  exists w',
    Backoff.withBackoff n maxDelay startingDelay random fn w
    = Some (fn (calls w' - 1), w')
    /\ (calls w < calls w')%nat.
Proof.
  intros Hn. unfold Backoff.withBackoff. apply loop_last_outcome.
  - lia.
  - unfold Backoff.fuelFor. lia.
Qed.

(** The delays in closed form: with a cap that is not negative, the j-th
    next delay (from 0) is [min(delay * 2^(j+1), maxDelay)]. *)
Lemma nextDelays_closed_form (maxDelay : Z) :
  (0 <= maxDelay)%Z ->
  forall (k j : nat) (delay : Z),
    (j < k)%nat ->
    nextDelays maxDelay k delay !! j
    = Some (Z.min (delay * 2 ^ (Z.of_nat j + 1)) maxDelay).
Proof.
  intros Hcap. induction k as [|k IH]; intros j delay Hj; [lia|].
  destruct j as [|j]; cbn [nextDelays lookup list_lookup].
  - cbn. do 2 f_equal.
  - rewrite IH by lia. f_equal.
    replace (Z.of_nat (S j) + 1)%Z with (Z.succ (Z.of_nat j + 1)) by lia.
    rewrite Z.pow_succ_r by lia.
    assert (Hp : (1 <= 2 ^ (Z.of_nat j + 1))%Z)
      by (apply (Z.pow_le_mono_r 2 0); lia).
    set (p := (2 ^ (Z.of_nat j + 1))%Z) in *.
    destruct (Z.min_spec (delay * 2) maxDelay) as [[Hlt ->]|[Hge ->]].
    + f_equal. lia.
    + rewrite (Z.min_r (delay * (2 * p))) by nia.
      apply Z.min_r. nia.
Qed.

(** What the code does, for every attempt: against an operation that always
    fails, with a cap that is not negative, the base delay before attempt
    [k] is [min(startingDelay * 2^(k-1), maxDelay)], one doubling more than
    [specBaseDelay]. *)
Lemma withBackoff_base_delay {T : Type} (n maxDelay startingDelay : Z)
  (random : nat -> Q) (fn : nat -> Result T) (err : nat -> JsError)
  (w : World) (k : nat) :
  (0 <= maxDelay)%Z ->
  (forall i, fn i = Throw (err i)) ->
  events w = [] ->
  (2 <= k)%nat -> (Z.of_nat k <= n)%Z ->
  exists r w',
    Backoff.withBackoff n maxDelay startingDelay random fn w = Some (r, w')
    /\ baseDelayBefore k w'
       = Some (Z.min (startingDelay * 2 ^ (Z.of_nat k - 1)) maxDelay).
Proof.
  intros Hcap Hfail Hev Hk Hkn.
  destruct (loop_always_failing n maxDelay random fn err Hfail
              (Z.to_nat n - 1) (Backoff.fuelFor n) 0%Z startingDelay w)
    as (w' & Hrun & _ & Hdelays); [lia|unfold Backoff.fuelFor; lia|].
  exists (Throw (err (calls w + (Z.to_nat n - 1))%nat)), w'.
  split; [exact Hrun|].
  unfold baseDelayBefore. rewrite Hdelays. unfold baseDelays at 1.
  rewrite Hev. cbn [omap list_omap app].
  rewrite (nextDelays_closed_form maxDelay Hcap) by lia.
  replace (Z.of_nat (k - 2) + 1)%Z with (Z.of_nat k - 1)%Z by lia.
  reflexivity.
Qed.

(** C1, at the documented defaults (3 attempts, 1000 ms, cap 5000 ms) and an
    operation that always fails: the run ends with the error of the third
    invocation, the base delay before attempt 2 is 2000 ms and the one before
    attempt 3 is 4000 ms, where [min(startingDelay * 2^(k-2), maxDelay)] is
    1000 ms and 2000 ms: [delay] is doubled before its first use. *)
Theorem first_retry_waits_twice_the_starting_delay :
  exists w',
    Backoff.withBackoff 3 5000 1000 noJitter
      (fun i => Throw (failsWithIndex i) : Result unit) World0
    = Some (Throw (failsWithIndex 2), w')
    /\ baseDelayBefore 2 w' = Some 2000%Z
    /\ specBaseDelay 1000 5000 2 = 1000%Z
    /\ baseDelayBefore 3 w' = Some 4000%Z
    /\ specBaseDelay 1000 5000 3 = 2000%Z.
Proof.
  eexists. split; [vm_compute; reflexivity|].
  repeat split.
Qed.

(** C3: with [n >= 1] attempts configured, an operation that fails at every
    invocation is invoked exactly [n] times, and [withBackoff] then fails
    with the error of the last, n-th, invocation. *)
Theorem withBackoff_invokes_n_times_then_rethrows {T : Type}
  (n maxDelay startingDelay : Z) (random : nat -> Q)
  (fn : nat -> Result T) (err : nat -> JsError) (w : World) :
  (1 <= n)%Z ->
  (forall i, fn i = Throw (err i)) ->
  exists w',
    Backoff.withBackoff n maxDelay startingDelay random fn w
    = Some (Throw (err (calls w + Z.to_nat n - 1)%nat), w')
    /\ calls w' = (calls w + Z.to_nat n)%nat.
Proof.
  intros Hn Hfail.
  destruct (loop_always_failing n maxDelay random fn err Hfail
              (Z.to_nat n - 1) (Backoff.fuelFor n) 0%Z startingDelay w)
    as (w' & Hrun & Hcalls & _); [lia|unfold Backoff.fuelFor; lia|].
  exists w'. unfold Backoff.withBackoff. rewrite Hrun.
  replace (calls w + Z.to_nat n - 1)%nat with (calls w + (Z.to_nat n - 1))%nat
    by lia.
  split; [reflexivity|lia].
Qed.

Lemma withBackoff_invokes_n_times_then_rethrows_witness :
  (1 <= 3)%Z
  /\ exists w',
       Backoff.withBackoff 3 5000 1000 noJitter
         (fun i => Throw (failsWithIndex i) : Result unit) World0
       = Some (Throw (failsWithIndex 2), w')
       /\ calls w' = 3%nat.
Proof.
  split; [lia|].
  apply (withBackoff_invokes_n_times_then_rethrows 3 5000 1000 noJitter
           (fun i => Throw (failsWithIndex i) : Result unit)
           failsWithIndex World0); [lia|reflexivity].
Defined.

(** ** The embedders *)

Section EmbedFacts.
Variable out : Outside.

(** With at least one attempt configured, what [embed] of the Ollama
    embedder returns is what the last POST led to, and there is such a
    POST: the trailing [throw] of [withBackoff] is not what ends the call. *)
Lemma ollama_embed_last_attempt (n maxDelay startingDelay : Z)
  (baseUrl model text : string) (w : World) :
  (1 <= n)%Z ->
  exists w',
    Ollama.embedWith out n maxDelay startingDelay baseUrl model text w
    = Some (mapResult mkEmbedResult
              (Ollama.embedAttempt out baseUrl model text (calls w' - 1)), w')
    /\ (calls w < calls w')%nat.
Proof.
  intros Hn. unfold Ollama.embedWith, Ollama.embedText, Backoff.withBackoff.
  destruct (loop_last_outcome n maxDelay (random out)
              (Ollama.embedAttempt out baseUrl model text)
              (Backoff.fuelFor n) 0%Z startingDelay w)
    as (w' & -> & Hcalls); [lia|unfold Backoff.fuelFor; lia|].
  exists w'. split; [reflexivity|exact Hcalls].
Qed.

(** When every POST fails, [embed] of the Ollama embedder throws, after as
    many POSTs as attempts are configured. *)
Lemma ollama_embed_always_failing (n maxDelay startingDelay : Z)
  (baseUrl model text : string) (w : World) :
  (forall i req, isOk (axiosEmbeddings out i req) = false) ->
  exists e w',
    Ollama.embedWith out n maxDelay startingDelay baseUrl model text w
    = Some (Throw e, w')
    /\ calls w' = (calls w + Z.to_nat n)%nat.
Proof.
  intros Hdown.
  unfold Ollama.embedWith, Ollama.embedText, Backoff.withBackoff.
  destruct (Z_lt_le_dec n 1) as [Hneg|Hpos].
  - unfold Backoff.fuelFor. rewrite loop_not_entered by lia.
    exists Backoff.shouldNotReachHere, w. split; [reflexivity|lia].
  - set (req := {| embUrl := baseUrl ++ "/api/embeddings"; embModel := model;
                   embPrompt := text |}).
    set (err := fun i => match axiosEmbeddings out i req with
                         | Throw e => e
                         | Ok _ => Ollama.missingEmbedding
                         end).
    assert (Hfail : forall i,
               Ollama.embedAttempt out baseUrl model text i = Throw (err i)).
    { intros i. unfold Ollama.embedAttempt, err. fold req.
      specialize (Hdown i req).
      destruct (axiosEmbeddings out i req); [discriminate|reflexivity]. }
    destruct (loop_always_failing n maxDelay (random out) _ err Hfail
                (Z.to_nat n - 1) (Backoff.fuelFor n) 0%Z startingDelay w)
      as (w' & -> & Hcalls & _); [lia|unfold Backoff.fuelFor; lia|].
    eexists _, w'. split; [reflexivity|lia].
Qed.

(** When the call of the SDK fails, [embed] of the Gemini embedder throws. *)
Lemma gemini_embed_failing (model text : string) (w : World) :
  isOk (embedContent out (calls w) model text) = false ->
  exists e w', Gemini.embedWith out model text w = (Throw e, w').
Proof.
  intros Hdown. unfold Gemini.embedWith, tryCatch, bind, invoke, consoleLog, emit.
  cbn. destruct (embedContent out (calls w) model text); [discriminate|].
  cbn. eauto.
Qed.

End EmbedFacts.

(** When every POST fails, [embed] of the Ollama embedder makes as many
    POSTs as attempts are configured and throws what the last POST was
    rejected with; with no attempt configured it makes none and ends in the
    trailing [throw]. *)
Lemma ollama_embed_exhausts_attempts (out : Outside)
  (n maxDelay startingDelay : Z) (baseUrl model text : string) (w : World) :
  (forall i req, isOk (axiosEmbeddings out i req) = false) ->
  exists e w',
    Ollama.embedWith out n maxDelay startingDelay baseUrl model text w
    = Some (Throw e, w')
    /\ calls w' = (calls w + Z.to_nat n)%nat
    /\ ((1 <= n)%Z ->
        axiosEmbeddings out (calls w' - 1)
          (embeddingsRequest baseUrl model text) = Throw e)
    /\ ((n < 1)%Z -> e = Backoff.shouldNotReachHere).
Proof.
  intros Hdown.
  unfold Ollama.embedWith, Ollama.embedText, Backoff.withBackoff.
  destruct (Z_lt_le_dec n 1) as [Hneg|Hpos].
  - unfold Backoff.fuelFor. rewrite loop_not_entered by lia.
    exists Backoff.shouldNotReachHere, w.
    split; [reflexivity|]. split; [lia|]. split; [lia|reflexivity].
  - set (req := embeddingsRequest baseUrl model text).
    set (err := fun i => match axiosEmbeddings out i req with
                         | Throw e => e
                         | Ok _ => Ollama.missingEmbedding
                         end).
    assert (Hreq : forall i, axiosEmbeddings out i req = Throw (err i)).
    { intros i. unfold err. specialize (Hdown i req).
      destruct (axiosEmbeddings out i req); [discriminate|reflexivity]. }
    assert (Hfail : forall i,
               Ollama.embedAttempt out baseUrl model text i = Throw (err i)).
    { intros i. unfold Ollama.embedAttempt.
      change {| embUrl := baseUrl ++ "/api/embeddings"; embModel := model;
                embPrompt := text |} with req.
      now rewrite Hreq. }
    destruct (loop_always_failing n maxDelay (random out) _ err Hfail
                (Z.to_nat n - 1) (Backoff.fuelFor n) 0%Z startingDelay w)
      as (w' & -> & Hcalls & _); [lia|unfold Backoff.fuelFor; lia|].
    eexists _, w'. split; [reflexivity|]. split; [lia|]. split; [|lia].
    intros _. rewrite Hcalls.
    replace (calls w + S (Z.to_nat n - 1) - 1)%nat
      with (calls w + (Z.to_nat n - 1))%nat by lia.
    apply Hreq.
Qed.

(** When the call of the SDK fails, [embed] of the Gemini embedder has made
    that one call and throws the failure wrapped in a new error. *)
Lemma gemini_embed_fails_once (out : Outside) (model text : string)
  (w : World) :
  isOk (embedContent out (calls w) model text) = false ->
  exists cause w',
    embedContent out (calls w) model text = Throw cause
    /\ Gemini.embedWith out model text w
       = (Throw (newError ("Failed to generate embeddings: "
                             ++ template (errMessage cause))), w')
    /\ calls w' = S (calls w).
Proof.
  intros Hdown. unfold Gemini.embedWith, tryCatch, bind, invoke, consoleLog,
    consoleErrorWith, emit, throw.
  cbn. destruct (embedContent out (calls w) model text) as [v|cause];
    [discriminate|].
  cbn. eexists cause, _. repeat split.
Qed.

(** C4: when the backend fails at every attempt, an embed call throws, for
    every text and every configuration, with each of the three embedders: it
    returns no [EmbedResult], hence no empty embedding either.  Both Ollama
    embedders give up after exactly as many POSTs as attempts are configured
    and throw what the last POST was rejected with (with no attempt
    configured they make no POST and end in the trailing [throw]); the
    Gemini embedder gives up after its single call and throws that failure
    wrapped in a new error, unless the API key is missing, in which case the
    constructor has thrown already. *)
Theorem embed_fails_loudly (out : Outside) (options : Ollama.OllamaEmbedderOptions)
  (config : LlmProviderConfig) (text : string) (w : World) :
  embedBackendAlwaysFails out ->
  (exists e w',
      embed (Ollama.makeOllamaEmbedder out options) text w = Some (Throw e, w')
      /\ calls w' = (calls w + Z.to_nat (standaloneAttempts options))%nat
      /\ ((1 <= standaloneAttempts options)%Z ->
          axiosEmbeddings out (calls w' - 1)
            (embeddingsRequest
               (default "http://localhost:11434" (Ollama.optBaseUrl options))
               (default "nomic-embed-text" (Ollama.optModel options)) text)
          = Throw e)
      /\ ((standaloneAttempts options < 1)%Z ->
          e = Backoff.shouldNotReachHere))
  /\ (exists e w',
         constructThenEmbed (Ollama.createEmbedder out config) text w
         = Some (Throw e, w')
         /\ calls w'
            = (calls w + Z.to_nat (Ollama.backoffConstants config).1.1)%nat
         /\ ((1 <= (Ollama.backoffConstants config).1.1)%Z ->
             axiosEmbeddings out (calls w' - 1)
               (embeddingsRequest
                  (orStr (baseUrl config) "http://localhost:11434")
                  (orStr (embeddingModel config) "nomic-embed-text") text)
             = Throw e)
         /\ (((Ollama.backoffConstants config).1.1 < 1)%Z ->
             e = Backoff.shouldNotReachHere))
  /\ (exists e w',
         constructThenEmbed (Gemini.createEmbedder out config) text w
         = Some (Throw e, w')
         /\ if truthyStr (apiKey config)
            then calls w' = S (calls w)
                 /\ exists cause,
                      embedContent out (calls w)
                        (orStr (embeddingModel config) "embedding-001") text
                      = Throw cause
                      /\ e = newError ("Failed to generate embeddings: "
                                         ++ template (errMessage cause))
            else e = Gemini.requiresAnApiKey /\ w' = w).
Proof.
  intros [Haxios Hsdk]. split; [|split].
  - unfold Ollama.makeOllamaEmbedder, standaloneAttempts. cbn [embed].
    match goal with |- context [Ollama.embedWith _ ?n ?m ?s ?b ?md _ _] =>
      destruct (ollama_embed_exhausts_attempts out n m s b md text w Haxios)
        as (e & w' & -> & Hcalls & Hlast & Hnone) end.
    exists e, w'. repeat split; assumption.
  - unfold constructThenEmbed, Ollama.createEmbedder, Ollama.backoffConstants, ret.
    cbn [embed fst snd].
    match goal with |- context [Ollama.embedWith _ ?n ?m ?s ?b ?md _ _] =>
      destruct (ollama_embed_exhausts_attempts out n m s b md text w Haxios)
        as (e & w' & -> & Hcalls & Hlast & Hnone) end.
    exists e, w'. repeat split; assumption.
  - unfold constructThenEmbed, Gemini.createEmbedder.
    destruct (truthyStr (apiKey config)); cbn [negb].
    + unfold ret. cbn [embed].
      destruct (gemini_embed_fails_once out
                  (orStr (embeddingModel config) "embedding-001") text w
                  (Hsdk _ _ _)) as (cause & w' & Hcause & -> & Hcalls).
      eexists _, w'. split; [reflexivity|]. split; [exact Hcalls|].
      exists cause. split; [exact Hcause|reflexivity].
    + eexists _, w. split; [reflexivity|]. split; reflexivity.
Qed.

Lemma embed_fails_loudly_witness :
  embedBackendAlwaysFails alwaysDown
  /\ (exists e w',
         embed (Ollama.makeOllamaEmbedder alwaysDown customOptions) "text" World0
         = Some (Throw e, w')
         /\ calls w' = 3%nat
         /\ axiosEmbeddings alwaysDown (calls w' - 1)
              (embeddingsRequest "http://ollama:11434" "nomic-embed-text" "text")
            = Throw e)
  /\ (exists e w',
         constructThenEmbed (Ollama.createEmbedder alwaysDown geminiConfig)
           "text" World0
         = Some (Throw e, w')
         /\ calls w' = 3%nat)
  /\ (exists e w',
         constructThenEmbed (Gemini.createEmbedder alwaysDown geminiConfig)
           "text" World0
         = Some (Throw e, w')
         /\ calls w' = 1%nat
         /\ e = newError "Failed to generate embeddings: Network Error").
Proof.
  assert (H : embedBackendAlwaysFails alwaysDown)
    by (split; intros; reflexivity).
  split; [exact H|].
  destruct (embed_fails_loudly alwaysDown customOptions geminiConfig "text"
              World0 H)
    as ((e1 & w1 & Hrun1 & Hcalls1 & Hlast1 & _)
        & (e2 & w2 & Hrun2 & Hcalls2 & _)
        & (e3 & w3 & Hrun3 & Hcalls3 & cause & Hcause & He3)).
  split; [|split].
  - exists e1, w1. split; [exact Hrun1|]. split; [exact Hcalls1|].
    apply Hlast1. vm_compute. discriminate.
  - exists e2, w2. split; [exact Hrun2|exact Hcalls2].
  - exists e3, w3. split; [exact Hrun3|]. split; [exact Hcalls3|].
    rewrite He3. injection Hcause as <-. reflexivity.
Defined.

(** C10, at [numOfAttempts = -1]: the value is truthy, so [||] keeps it and
    [withBackoff] does not run with at least one attempt; the loop is never
    entered and the call ends in the trailing [throw], the one whose message
    says that it should not be reached, without a single POST, though the
    backend would answer. *)
Lemma negative_attempts_reach_the_trailing_throw :
  ~ (forall config : LlmProviderConfig,
        (1 <= (Ollama.backoffConstants config).1.1)%Z)
  /\ (Ollama.backoffConstants negativeAttempts).1.1 = (-1)%Z
  /\ constructThenEmbed (Ollama.createEmbedder alwaysUp negativeAttempts)
       "text" World0
     = Some (Throw Backoff.shouldNotReachHere, World0).
Proof.
  split; [|split; reflexivity].
  intros H. specialize (H negativeAttempts). cbn in H. lia.
Qed.

(** X28: in [OllamaProvider.createEmbedder] a zero for [numOfAttempts],
    [maxDelay] or [startingDelay] is replaced by 3, 5000 and 1000, whatever
    the rest of the configuration; and when the configured [numOfAttempts]
    is absent or not negative, [withBackoff] runs with at least one attempt,
    makes at least one POST and ends with what the last POST led to, not
    with its trailing [throw]. *)
Theorem createEmbedder_zero_is_defaulted (out : Outside)
  (config : LlmProviderConfig) (text : string) (w : World) :
  let '(n, cap, start) := Ollama.backoffConstants config in
  (numOfAttempts config = Some 0%Z -> n = 3%Z)
  /\ (maxDelay config = Some 0%Z -> cap = 5000%Z)
  /\ (startingDelay config = Some 0%Z -> start = 1000%Z)
  /\ ((forall k, numOfAttempts config = Some k -> (0 <= k)%Z) ->
      (1 <= n)%Z
      /\ exists w',
           constructThenEmbed (Ollama.createEmbedder out config) text w
           = Some (mapResult mkEmbedResult
                     (Ollama.embedAttempt out
                        (orStr (baseUrl config) "http://localhost:11434")
                        (orStr (embeddingModel config) "nomic-embed-text")
                        text (calls w' - 1)), w')
           /\ (calls w < calls w')%nat).
Proof.
  unfold Ollama.backoffConstants.
  split; [intros ->; reflexivity|].
  split; [intros ->; reflexivity|].
  split; [intros ->; reflexivity|].
  intros Hnonneg.
  assert (Hn : (1 <= orNum (numOfAttempts config) 3)%Z).
  { unfold orNum. destruct (numOfAttempts config) as [k|]; [|lia].
    specialize (Hnonneg k eq_refl).
    destruct (k =? 0)%Z eqn:Hk; [lia|]. apply Z.eqb_neq in Hk. lia. }
  split; [exact Hn|].
  unfold constructThenEmbed, Ollama.createEmbedder, Ollama.backoffConstants, ret.
  cbn [embed].
  apply ollama_embed_last_attempt. exact Hn.
Qed.

Lemma createEmbedder_zero_is_defaulted_witness :
  (forall k, numOfAttempts zeroBackoff = Some k -> (0 <= k)%Z)
  /\ Ollama.backoffConstants zeroBackoff = (3%Z, 5000%Z, 1000%Z)
  /\ exists w',
       constructThenEmbed (Ollama.createEmbedder alwaysUp zeroBackoff)
         "text" World0
       = Some (mapResult mkEmbedResult
                 (Ollama.embedAttempt alwaysUp "http://localhost:11434"
                    "nomic-embed-text" "text" (calls w' - 1)), w')
       /\ (calls World0 < calls w')%nat.
Proof.
  assert (H : forall k, numOfAttempts zeroBackoff = Some k -> (0 <= k)%Z)
    by (intros k Hk; injection Hk as <-; lia).
  split; [exact H|]. split; [reflexivity|].
  exact (proj2 (proj2 (proj2 (proj2
           (createEmbedder_zero_is_defaulted alwaysUp zeroBackoff "text"
              World0))) H)).
Defined.

(** ** The chat adapters *)

Lemma apologyFor_isApology (t : bool) : isApology (apologyFor t).
Proof. destruct t; repeat split; try discriminate; [now left|now right]. Qed.

Lemma apologyFor_inj (t1 t2 : bool) :
  apologyFor t1 = apologyFor t2 <-> t1 = t2.
Proof.
  split; [|now intros ->].
  destruct t1, t2; try reflexivity; intros H; discriminate H.
Qed.

(** The normalizer never raises. *)
Lemma chatMessagesOf_total (messages : list Message) :
  exists chat, Gemini.chatMessagesOf messages = Ok chat.
Proof.
  unfold Gemini.chatMessagesOf.
  destruct (_ && _); [|eauto].
  unfold Gemini.findIndex.
  destruct (list_find _ _) as [[i x]|] eqn:Hfind; cbn; [|eauto].
  apply list_find_Some in Hfind as (Hlook & _). rewrite Hlook. eauto.
Qed.

Section ChatFacts.
Variable out : Outside.

(** A rejected POST becomes the apology of its kind; one call was made, and
    a timeout leaves its own line in the log. *)
Lemma ollama_chat_degrades (baseUrl model : string) (timeout : Z)
  (messages : list Message) (w : World) (e : JsError) :
  axiosGenerate out (calls w)
    (Ollama.generateRequest baseUrl model timeout (Ollama.promptOf messages))
  = Throw e ->
  exists w',
    Ollama.answerQuestionAwaitedWith out baseUrl model timeout messages w
    = (Ok (apologyFor (Ollama.isTimeout e)), w')
    /\ calls w' = S (calls w)
    /\ last (events w')
       = Some (if Ollama.isTimeout e
               then ConsoleError "Ollama API call timed out"
               else ConsoleErrorWith "Error calling Ollama:" e).
Proof.
  intros Hfail.
  unfold Ollama.answerQuestionAwaitedWith, tryCatch, bind, invoke, consoleLog,
    consoleError, consoleErrorWith, emit, ret, apologyFor.
  cbn. rewrite Hfail. cbn.
  destruct (Ollama.isTimeout e); cbn; eexists; (split; [reflexivity|]);
    cbn; (split; [reflexivity|]); apply last_snoc.
Qed.

(** The same for Gemini, whether the request is rejected or the timer wins
    the race. *)
Lemma gemini_chat_degrades (model : string) (timeout : Z)
  (messages : list Message) (chat : list GeminiMessage) (w : World)
  (e : JsError) :
  Gemini.chatMessagesOf messages = Ok chat ->
  Gemini.race (generateContent out (calls w) model chat timeout) = Throw e ->
  exists w',
    Gemini.answerQuestionAwaitedWith out model timeout messages w
    = (Ok (apologyFor (Gemini.isTimeout e)), w')
    /\ calls w' = S (calls w)
    /\ last (events w')
       = Some (if Gemini.isTimeout e
               then ConsoleError "Gemini API call timed out"
               else ConsoleErrorWith "Error calling Gemini:" e).
Proof.
  intros Hchat Hfail.
  unfold Gemini.answerQuestionAwaitedWith, tryCatch, bind, invoke, consoleLog,
    consoleError, consoleErrorWith, emit, ret, liftResult, apologyFor.
  cbn. rewrite Hchat. cbn. rewrite Hfail. cbn.
  destruct (Gemini.isTimeout e); cbn; eexists; (split; [reflexivity|]);
    cbn; (split; [reflexivity|]); apply last_snoc.
Qed.

(** Whatever the backend does, a chat call returns. *)
Lemma gemini_chat_returns (model : string) (timeout : Z)
  (messages : list Message) (w : World) :
  exists r w',
    Gemini.answerQuestionAwaitedWith out model timeout messages w = (Ok r, w').
Proof.
  unfold Gemini.answerQuestionAwaitedWith, tryCatch.
  destruct (bind _ _ w) as [[r|e] w1]; [eauto|].
  unfold bind, consoleErrorWith, consoleError, emit, ret. cbn.
  destruct (Gemini.isTimeout e); eauto.
Qed.

End ChatFacts.

(** C2: when the backend call of a chat call fails, by timeout or by any
    transport error, [answerQuestionAwaited] returns an assistant turn with
    one of the two apologies, not empty, and raises nothing; for the Ollama
    provider, for [makeOllamaLlm] and for the Gemini provider, with any
    constants in the closure and any message list. *)
Theorem chat_failure_degrades_to_apology (out : Outside)
  (baseUrl model : string) (timeout : Z) (messages : list Message)
  (w : World) :
  chatBackendFails out (calls w) ->
  (exists r w',
      Ollama.answerQuestionAwaitedWith out baseUrl model timeout messages w
      = (Ok r, w') /\ isApology r)
  /\ (exists r w',
         answerQuestionAwaited (Ollama.makeOllamaLlm out baseUrl model)
           messages w
         = (Ok r, w') /\ isApology r)
  /\ (exists r w',
         Gemini.answerQuestionAwaitedWith out model timeout messages w
         = (Ok r, w') /\ isApology r).
Proof.
  intros [Haxios Hsdk].
  assert (Hollama : forall t, exists r w',
             Ollama.answerQuestionAwaitedWith out baseUrl model t messages w
             = (Ok r, w') /\ isApology r).
  { intros t.
    pose proof (Haxios (Ollama.generateRequest baseUrl model t
                          (Ollama.promptOf messages))) as Hreq.
    destruct (axiosGenerate out (calls w) _) as [v|e] eqn:He; [discriminate|].
    destruct (ollama_chat_degrades out baseUrl model t messages w e He)
      as (w' & Hrun & _).
    eexists _, w'. split; [exact Hrun|apply apologyFor_isApology]. }
  split; [apply Hollama|]. split; [apply Hollama|].
  destruct (chatMessagesOf_total messages) as (chat & Hchat).
  pose proof (Hsdk model chat timeout) as Hreq.
  destruct (Gemini.race _) as [v|e] eqn:He; [discriminate|].
  destruct (gemini_chat_degrades out model timeout messages chat w e Hchat He)
    as (w' & Hrun & _).
  eexists _, w'. split; [exact Hrun|apply apologyFor_isApology].
Qed.

Lemma chat_failure_degrades_to_apology_witness :
  chatBackendFails timesOut (calls World0)
  /\ (exists r w',
         Ollama.answerQuestionAwaitedWith timesOut "http://localhost:11434"
           "llama3" 60000 systemThenUser World0
         = (Ok r, w') /\ isApology r)
  /\ (exists r w',
         answerQuestionAwaited
           (Ollama.makeOllamaLlm timesOut "http://localhost:11434" "llama3")
           systemThenUser World0
         = (Ok r, w') /\ isApology r)
  /\ (exists r w',
         Gemini.answerQuestionAwaitedWith timesOut "llama3" 60000
           systemThenUser World0
         = (Ok r, w') /\ isApology r).
Proof.
  assert (H : chatBackendFails timesOut (calls World0))
    by (split; intros; reflexivity).
  split; [exact H|].
  exact (chat_failure_degrades_to_apology timesOut "http://localhost:11434"
           "llama3" 60000 systemThenUser World0 H).
Defined.

(** C7, as stated, fails: on the same messages, a call that times out and a
    call that meets a network error are given different answers, by the
    Gemini adapter and by the Ollama adapter alike. *)
Lemma timeout_and_transport_answers_differ :
  (Gemini.answerQuestionAwaitedWith timesOut "gemini-pro" 60000
     systemThenUser World0).1
  <> (Gemini.answerQuestionAwaitedWith alwaysDown "gemini-pro" 60000
        systemThenUser World0).1
  /\ (Ollama.answerQuestionAwaitedWith timesOut "http://localhost:11434"
        "llama3" 60000 systemThenUser World0).1
     <> (Ollama.answerQuestionAwaitedWith alwaysDown "http://localhost:11434"
           "llama3" 60000 systemThenUser World0).1.
Proof.
  split; vm_compute; intros H; discriminate H.
Qed.

(** C7, amended: two failing chat calls on the same messages both return an
    assistant turn that carries an apology, and the two returned values are
    equal exactly when the two failures are of the same kind: a timeout is
    answered with [timeoutApology], any other failure with
    [technicalApology], and a timeout also leaves a line of its own in the
    log. *)
Theorem chat_answer_depends_on_failure_kind (out1 out2 : Outside)
  (baseUrl model : string) (timeout : Z) (messages : list Message)
  (w1 w2 : World) (eo1 eo2 eg1 eg2 : JsError) :
  ollamaFailsWith out1 (calls w1) eo1 ->
  ollamaFailsWith out2 (calls w2) eo2 ->
  geminiFailsWith out1 (calls w1) eg1 ->
  geminiFailsWith out2 (calls w2) eg2 ->
  let o1 := Ollama.answerQuestionAwaitedWith out1 baseUrl model timeout messages w1 in
  let o2 := Ollama.answerQuestionAwaitedWith out2 baseUrl model timeout messages w2 in
  let g1 := Gemini.answerQuestionAwaitedWith out1 model timeout messages w1 in
  let g2 := Gemini.answerQuestionAwaitedWith out2 model timeout messages w2 in
  (o1.1 = Ok (apologyFor (Ollama.isTimeout eo1))
   /\ o2.1 = Ok (apologyFor (Ollama.isTimeout eo2))
   /\ (o1.1 = o2.1 <-> Ollama.isTimeout eo1 = Ollama.isTimeout eo2)
   /\ (last (events o1.2) = Some (ConsoleError "Ollama API call timed out")
       <-> Ollama.isTimeout eo1 = true))
  /\ (g1.1 = Ok (apologyFor (Gemini.isTimeout eg1))
      /\ g2.1 = Ok (apologyFor (Gemini.isTimeout eg2))
      /\ (g1.1 = g2.1 <-> Gemini.isTimeout eg1 = Gemini.isTimeout eg2)
      /\ (last (events g1.2) = Some (ConsoleError "Gemini API call timed out")
          <-> Gemini.isTimeout eg1 = true)).
Proof.
  intros Ho1 Ho2 Hg1 Hg2. cbv zeta.
  destruct (ollama_chat_degrades out1 baseUrl model timeout messages w1 eo1
              (Ho1 _)) as (wo1 & -> & _ & Hlo1).
  destruct (ollama_chat_degrades out2 baseUrl model timeout messages w2 eo2
              (Ho2 _)) as (wo2 & -> & _ & _).
  destruct (chatMessagesOf_total messages) as (chat & Hchat).
  destruct (gemini_chat_degrades out1 model timeout messages chat w1 eg1 Hchat
              (Hg1 _ _ _)) as (wg1 & -> & _ & Hlg1).
  destruct (gemini_chat_degrades out2 model timeout messages chat w2 eg2 Hchat
              (Hg2 _ _ _)) as (wg2 & -> & _ & _).
  cbn [fst snd].
  split.
  - split; [reflexivity|]. split; [reflexivity|]. split.
    + split; [intros H; apply apologyFor_inj; congruence|now intros ->].
    + rewrite Hlo1. destruct (Ollama.isTimeout eo1);
        split; try reflexivity; intros H; discriminate H.
  - split; [reflexivity|]. split; [reflexivity|]. split.
    + split; [intros H; apply apologyFor_inj; congruence|now intros ->].
    + rewrite Hlg1. destruct (Gemini.isTimeout eg1);
        split; try reflexivity; intros H; discriminate H.
Qed.

Lemma chat_answer_depends_on_failure_kind_witness :
  ollamaFailsWith timesOut (calls World0) axiosTimeout
  /\ ollamaFailsWith alwaysDown (calls World0) networkError
  /\ geminiFailsWith timesOut (calls World0) Gemini.timedOut
  /\ geminiFailsWith alwaysDown (calls World0) networkError
  /\ (Ollama.answerQuestionAwaitedWith timesOut "http://localhost:11434"
        "llama3" 60000 systemThenUser World0).1 = Ok (apologyFor true)
  /\ (Ollama.answerQuestionAwaitedWith alwaysDown "http://localhost:11434"
        "llama3" 60000 systemThenUser World0).1 = Ok (apologyFor false)
  /\ (Gemini.answerQuestionAwaitedWith timesOut "llama3" 60000
        systemThenUser World0).1 = Ok (apologyFor true)
  /\ (Gemini.answerQuestionAwaitedWith alwaysDown "llama3" 60000
        systemThenUser World0).1 = Ok (apologyFor false).
Proof.
  assert (H1 : ollamaFailsWith timesOut (calls World0) axiosTimeout)
    by (intros ?; reflexivity).
  assert (H2 : ollamaFailsWith alwaysDown (calls World0) networkError)
    by (intros ?; reflexivity).
  assert (H3 : geminiFailsWith timesOut (calls World0) Gemini.timedOut)
    by (intros ? ? ?; reflexivity).
  assert (H4 : geminiFailsWith alwaysDown (calls World0) networkError)
    by (intros ? ? ?; reflexivity).
  destruct (chat_answer_depends_on_failure_kind timesOut alwaysDown
              "http://localhost:11434" "llama3" 60000 systemThenUser
              World0 World0 axiosTimeout networkError Gemini.timedOut
              networkError H1 H2 H3 H4)
    as ((Ho1 & Ho2 & _) & (Hg1 & Hg2 & _)).
  repeat split; assumption.
Defined.

(** C9: an adapter that requires a credential (Gemini) throws from
    [createChatLlm] and from [createEmbedder] themselves when the API key is
    absent (or empty): no capability is returned on which a first call could
    fail later, and the world is as it was, so no call has gone out. *)
Theorem credential_checked_at_construction (out : Outside) (p : Factory.LlmProvider)
  (config : LlmProviderConfig) (w : World) :
  Factory.requiresApiKey p = true ->
  truthyStr (apiKey config) = false ->
  Factory.providerCreateChatLlm out p config w = (Throw Gemini.requiresAnApiKey, w)
  /\ Factory.providerCreateEmbedder out p config w = (Throw Gemini.requiresAnApiKey, w).
Proof.
  intros Hreq Hkey. destruct p; [discriminate Hreq|].
  unfold Factory.providerCreateChatLlm, Factory.providerCreateEmbedder,
    Gemini.createChatLlm, Gemini.createEmbedder.
  rewrite Hkey. split; reflexivity.
Qed.

Lemma credential_checked_at_construction_witness :
  Factory.requiresApiKey Factory.GeminiProvider = true
  /\ truthyStr (apiKey emptyConfig) = false
  /\ Factory.providerCreateChatLlm alwaysUp Factory.GeminiProvider emptyConfig World0
     = (Throw Gemini.requiresAnApiKey, World0)
  /\ Factory.providerCreateEmbedder alwaysUp Factory.GeminiProvider emptyConfig World0
     = (Throw Gemini.requiresAnApiKey, World0).
Proof.
  split; [reflexivity|]. split; [reflexivity|].
  apply (credential_checked_at_construction alwaysUp Factory.GeminiProvider
           emptyConfig World0); reflexivity.
Defined.

(** ** The Message Normalizer *)

Lemma filter_fmap_comm {A B : Type} (f : A -> B) (P : B -> Prop) (Q : A -> Prop)
  `{!forall y, Decision (P y)} `{!forall x, Decision (Q x)} (l : list A) :
  (forall x, P (f x) <-> Q x) ->
  filter P (f <$> l) = f <$> filter Q l.
Proof.
  intros HPQ. induction l as [|a l IH]; [reflexivity|].
  rewrite fmap_cons, !filter_cons, IH.
  destruct (decide (P (f a))) as [HP|HP], (decide (Q a)) as [HQ|HQ];
    try reflexivity; exfalso; apply HPQ in HP || apply HPQ in HQ; contradiction.
Qed.

Lemma toGemini_system (m : Message) :
  gRole (Gemini.toGemini m) = "system" <-> role m = "system".
Proof.
  unfold Gemini.toGemini. cbn.
  destruct (String.eqb_spec (role m) "assistant") as [Heq|Hne];
    [rewrite Heq; split; discriminate|reflexivity].
Qed.

Lemma toGemini_user (m : Message) :
  gRole (Gemini.toGemini m) = "user" <-> role m = "user".
Proof.
  unfold Gemini.toGemini. cbn.
  destruct (String.eqb_spec (role m) "assistant") as [Heq|Hne];
    [rewrite Heq; split; discriminate|reflexivity].
Qed.

Lemma gText_toGemini (l : list Message) :
  gText <$> (Gemini.toGemini <$> l) = content <$> l.
Proof. induction l as [|a l IH]; [reflexivity|]. cbn. now rewrite IH. Qed.

(** The two filters of the normalizer, read on the messages it was given. *)
Lemma chatMessagesOf_unfold (messages : list Message) :
  Gemini.chatMessagesOf messages
  = let systemMessages := filter (fun m => role m = "system") messages in
    let rest :=
      Gemini.toGemini <$> filter (fun m => role m <> "system") messages in
    if (0 <? length systemMessages)%nat && (0 <? length rest)%nat then
      match list_find (fun msg => gRole msg = "user") rest with
      | Some (i, firstUser) =>
        Ok (<[i := {| gRole := gRole firstUser;
                      gText := Gemini.systemInstructions
                                 (join nlnl (content <$> systemMessages))
                                 (gText firstUser) |}]> rest)
      | None => Ok rest
      end
    else Ok rest.
Proof.
  unfold Gemini.chatMessagesOf. cbv zeta.
  rewrite (filter_fmap_comm Gemini.toGemini _ (fun m => role m = "system"))
    by apply toGemini_system.
  rewrite (filter_fmap_comm Gemini.toGemini _ (fun m => role m <> "system"))
    by (intros x; now rewrite toGemini_system).
  rewrite gText_toGemini, length_fmap.
  destruct (_ && _); [|reflexivity].
  unfold Gemini.findIndex.
  destruct (list_find _ _) as [[i x]|] eqn:Hfind; cbn; [|reflexivity].
  apply list_find_Some in Hfind as (Hlook & _). now rewrite Hlook.
Qed.

(** C5: [{system, "A"}, {user, "B"}] becomes the single user message
    "[System Instructions: A]\n\nB"; and in general, when there is a system
    message, the contents of the system messages, in their order, joined by a
    blank line and wrapped as "[System Instructions: ...]" plus a blank line,
    are put in front of the content of the first user message of the
    remaining sequence, which is otherwise unchanged. *)
Theorem system_messages_merge_into_first_user (messages : list Message)
  (i : nat) (firstUser : GeminiMessage) :
  let systemContents :=
    content <$> filter (fun m => role m = "system") messages in
  let rest :=
    Gemini.toGemini <$> filter (fun m => role m <> "system") messages in
  systemContents <> [] ->
  list_find (fun msg => gRole msg = "user") rest = Some (i, firstUser) ->
  Gemini.chatMessagesOf messages
  = Ok (<[i := {| gRole := "user";
                  gText := "[System Instructions: "
                             ++ join (nl ++ nl) systemContents ++ "]"
                             ++ nl ++ nl ++ gText firstUser |}]> rest)
  /\ Gemini.chatMessagesOf
       [ {| role := "system"; content := "A" |};
         {| role := "user"; content := "B" |} ]
     = Ok [ {| gRole := "user";
               gText := "[System Instructions: A]" ++ nl ++ nl ++ "B" |} ].
Proof.
  intros systemContents rest Hsys Hfind.
  split; [|reflexivity].
  rewrite chatMessagesOf_unfold. cbv zeta. fold rest. fold systemContents.
  assert (Hlen1 : (0 <? length (filter (fun m => role m = "system") messages))%nat
                  = true).
  { apply Nat.ltb_lt. subst systemContents.
    destruct (filter (fun m => role m = "system") messages);
      [exfalso; now apply Hsys|cbn; lia]. }
  pose proof Hfind as Hfound.
  apply list_find_Some in Hfound as (Hlook & Hrole & _).
  assert (Hlen2 : (0 <? length rest)%nat = true).
  { apply Nat.ltb_lt. apply lookup_lt_Some in Hlook. lia. }
  rewrite Hlen1, Hlen2, Hfind. cbn [andb]. rewrite Hrole.
  reflexivity.
Qed.

Lemma system_messages_merge_into_first_user_witness :
  content <$> filter (fun m => role m = "system") systemThenUser <> []
  /\ list_find (fun msg => gRole msg = "user")
       (Gemini.toGemini <$> filter (fun m => role m <> "system") systemThenUser)
     = Some (0%nat, {| gRole := "user"; gText := "B" |})
  /\ Gemini.chatMessagesOf systemThenUser
     = Ok [ {| gRole := "user";
               gText := "[System Instructions: A]" ++ nl ++ nl ++ "B" |} ].
Proof.
  assert (H1 : content <$> filter (fun m => role m = "system") systemThenUser
               <> []) by (vm_compute; discriminate).
  assert (H2 : list_find (fun msg => gRole msg = "user")
                 (Gemini.toGemini
                    <$> filter (fun m => role m <> "system") systemThenUser)
               = Some (0%nat, {| gRole := "user"; gText := "B" |}))
    by reflexivity.
  split; [exact H1|]. split; [exact H2|].
  exact (proj2 (system_messages_merge_into_first_user systemThenUser 0
                  {| gRole := "user"; gText := "B" |} H1 H2)).
Defined.

(** C6: when the conversation holds a system message and no user message,
    the normalizer returns the other messages, converted and otherwise
    untouched: every message it returns comes from a message that is not a
    system message, so the system content is dropped; and neither the
    normalizer nor the chat call raises. *)
Theorem system_content_dropped_without_user (messages : list Message) :
  (exists m, m ∈ messages /\ role m = "system") ->
  (forall m, m ∈ messages -> role m <> "user") ->
  let kept := filter (fun m => role m <> "system") messages in
  Gemini.chatMessagesOf messages = Ok (Gemini.toGemini <$> kept)
  /\ (forall g, g ∈ Gemini.toGemini <$> kept ->
        gRole g <> "system"
        /\ exists m, m ∈ messages /\ role m <> "system"
                     /\ g = Gemini.toGemini m)
  /\ (forall (out : Outside) (model : string) (timeout : Z) (w : World),
        exists r w',
          Gemini.answerQuestionAwaitedWith out model timeout messages w
          = (Ok r, w')).
Proof.
  intros _ Hnouser kept. split; [|split].
  - rewrite chatMessagesOf_unfold. cbv zeta. fold kept.
    destruct (_ && _); [|reflexivity].
    destruct (list_find _ _) as [[i x]|] eqn:Hfind; [|reflexivity].
    exfalso. apply list_find_Some in Hfind as (Hlook & Hrole & _).
    apply list_elem_of_lookup_2 in Hlook.
    apply list_elem_of_fmap in Hlook as (m & -> & Hm).
    apply list_elem_of_filter in Hm as (_ & Hm).
    apply toGemini_user in Hrole. exact (Hnouser m Hm Hrole).
  - intros g Hg. apply list_elem_of_fmap in Hg as (m & -> & Hm).
    apply list_elem_of_filter in Hm as (Hns & Hm).
    split; [now rewrite toGemini_system|eauto].
  - intros out model timeout w. apply gemini_chat_returns.
Qed.

Lemma system_content_dropped_without_user_witness :
  (exists m, m ∈ systemOnly /\ role m = "system")
  /\ (forall m, m ∈ systemOnly -> role m <> "user")
  /\ Gemini.chatMessagesOf systemOnly = Ok [ {| gRole := "model"; gText := "C" |} ].
Proof.
  assert (H1 : exists m, m ∈ systemOnly /\ role m = "system").
  { exists {| role := "system"; content := "A" |}.
    split; [apply elem_of_cons; now left|reflexivity]. }
  assert (H2 : forall m, m ∈ systemOnly -> role m <> "user").
  { intros m Hm. unfold systemOnly in Hm.
    rewrite !elem_of_cons, elem_of_nil in Hm.
    destruct Hm as [->|[->|[]]]; discriminate. }
  split; [exact H1|]. split; [exact H2|].
  exact (proj1 (system_content_dropped_without_user systemOnly H1 H2)).
Defined.

(** ** The registry *)

Lemma append_cons (a : ascii) (s t : string) :
  String a s ++ t = String a (s ++ t).
Proof. reflexivity. Qed.

Lemma append_assoc (s t u : string) : (s ++ t) ++ u = s ++ (t ++ u).
Proof.
  induction s as [|a s IH]; [reflexivity|].
  now rewrite !append_cons, IH.
Qed.

Lemma prefix_append (needle after : string) :
  String.prefix needle (needle ++ after) = true.
Proof.
  induction needle as [|a needle IH]; [now destruct after|].
  rewrite append_cons. cbn. destruct (ascii_dec a a); [exact IH|contradiction].
Qed.

(** [includes] finds every occurrence. *)
Lemma includes_occurs (needle haystack : string) :
  occursIn needle haystack -> includes needle haystack = true.
Proof.
  intros (before & after & ->).
  induction before as [|a before IH].
  - change ("" ++ needle ++ after) with (needle ++ after).
    pose proof (prefix_append needle after) as Hp.
    destruct (needle ++ after); cbn [includes]; [exact Hp|now rewrite Hp].
  - rewrite append_cons. cbn [includes]. rewrite IH. apply orb_true_r.
Qed.

(** What the code does for a name that [providers[...]] does not find: it
    throws, and the message holds every registered name. *)
Lemma getLlmProvider_not_found (providerName : string) :
  Factory.getProperty (toLowerCase providerName) = None ->
  Factory.getLlmProvider providerName
  = Throw (newError (Factory.notFoundMessage providerName))
  /\ forall name, name ∈ Factory.objectKeys Factory.providers ->
       includes name (Factory.notFoundMessage providerName) = true.
Proof.
  intros Hnone. unfold Factory.getLlmProvider. rewrite Hnone.
  split; [reflexivity|]. intros name Hname. apply includes_occurs.
  cbn in Hname. rewrite !elem_of_cons, elem_of_nil in Hname.
  unfold Factory.notFoundMessage.
  destruct Hname as [->|[->|[]]].
  - exists ("LLM provider '" ++ providerName
              ++ "' not found. Available providers: "), ", gemini".
    now rewrite !append_assoc.
  - exists ("LLM provider '" ++ providerName
              ++ "' not found. Available providers: ollama, "), "".
    now rewrite !append_assoc.
Qed.

(** Lookup folds the case: [OLLAMA] and [ollama] are the same provider. *)
Lemma getLlmProvider_folds_case :
  Factory.getLlmProvider "OLLAMA" = Factory.getLlmProvider "ollama"
  /\ Factory.getLlmProvider "ollama" = Ok (Factory.Own Factory.OllamaProvider)
  /\ Factory.getLlmProvider "Gemini" = Ok (Factory.Own Factory.GeminiProvider).
Proof. repeat split. Qed.

(** C8, at the names [constructor] and [__proto__]: neither is registered,
    yet [getLlmProvider] throws nothing and returns what [providers]
    inherits from [Object.prototype]; a name that is found nowhere, such as
    [unknown-provider], does get the error that lists the registered names. *)
Theorem getLlmProvider_finds_inherited_properties :
  Factory.ownProperty Factory.providers (toLowerCase "constructor") = None
  /\ Factory.getLlmProvider "constructor" = Ok (Factory.Inherited "constructor")
  /\ Factory.ownProperty Factory.providers (toLowerCase "__proto__") = None
  /\ Factory.getLlmProvider "__proto__" = Ok (Factory.Inherited "__proto__")
  /\ Factory.getLlmProvider "unknown-provider"
     = Throw (newError "LLM provider 'unknown-provider' not found. Available providers: ollama, gemini").
Proof. repeat split. Qed.

(** * Further properties of the code *)

(** ** More on [withBackoff] *)

Lemma pause_events (n : Z) (random : nat -> Q) (attempt delay : Z) (w : World) :
  exists w' msg,
    Backoff.pause n random attempt delay w = (Ok tt, w')
    /\ calls w' = calls w
    /\ draws w' = S (draws w)
    /\ events w'
       = (events w
            ++ [ConsoleWarn msg;
                SetTimeout delay
                  (random (draws w) * (1 # 10) * inject_Z delay)%Q])%list.
Proof.
  exists (snd (Backoff.pause n random attempt delay w)). eexists.
  split; [reflexivity|]. cbn. repeat split.
  now rewrite <- app_assoc.
Qed.

Section BackoffMore.
Context {T : Type}.
Variables (n maxDelay : Z) (random : nat -> Q) (fn : nat -> Result T).

Local Abbreviation loop := (Backoff.loop n maxDelay random fn).

(** Any run that enters the loop: [k] invocations, between one and the
    attempts left, [k - 1] draws and timers, the timers being the next
    delays, and the outcome that of the last invocation. *)
Lemma loop_counts (fuel : nat) :
  forall (attempt delay : Z) (w : World),
    (attempt < n)%Z ->
    (Z.to_nat (n - attempt) < fuel)%nat ->
    exists w' k,
      loop fuel attempt delay w = Some (fn (calls w' - 1), w')
      /\ (1 <= k <= Z.to_nat (n - attempt))%nat
      /\ calls w' = (calls w + k)%nat
      /\ draws w' = (draws w + (k - 1))%nat
      /\ baseDelays w'
         = (baseDelays w ++ nextDelays maxDelay (k - 1) delay)%list.
Proof.
  induction fuel as [|fuel IH]; intros attempt delay w Hlt Hfuel; [lia|].
  cbn [Backoff.loop].
  destruct (attempt <? n)%Z eqn:Hltb; [|apply Z.ltb_ge in Hltb; lia].
  unfold invoke. destruct (fn (calls w)) as [v|e] eqn:Hfn.
  - exists {| calls := S (calls w); draws := draws w; events := events w |}, 1%nat.
    cbn. rewrite Nat.sub_0_r, Hfn. unfold baseDelays. cbn.
    rewrite app_nil_r. repeat split; lia.
  - destruct (attempt + 1 >=? n)%Z eqn:Hge.
    + exists {| calls := S (calls w); draws := draws w; events := events w |},
        1%nat.
      cbn. rewrite Nat.sub_0_r, Hfn. unfold baseDelays. cbn.
      rewrite app_nil_r. repeat split; lia.
    + rewrite Z.geb_leb in Hge. apply Z.leb_gt in Hge.
      match goal with |- context [Backoff.pause ?a ?b ?c ?d ?w0] =>
        destruct (pause_runs a b c d w0) as (w2 & -> & Hc & Hdr & Hd) end.
      destruct (IH (attempt + 1)%Z (Z.min (delay * 2) maxDelay) w2)
        as (w' & k & -> & Hk & Hcalls & Hdraws & Hdelays); [lia|lia|].
      exists w', (S k). cbn in Hc, Hdr. rewrite Hc in Hcalls.
      rewrite Hdr in Hdraws. split; [reflexivity|].
      split; [lia|]. split; [lia|]. split; [lia|].
      rewrite Hdelays, Hd.
      replace (S k - 1)%nat with (S (k - 1)) by lia.
      cbn. now rewrite <- app_assoc.
Qed.

(** A run against an operation that fails [j] times and then answers. *)
Lemma loop_succeeds_after (v : T) :
  forall (j fuel : nat) (attempt delay : Z) (w : World),
    (attempt + Z.of_nat j < n)%Z ->
    (j < fuel)%nat ->
    (forall i, (i < j)%nat -> isOk (fn (calls w + i)) = false) ->
    fn (calls w + j) = Ok v ->
    exists w',
      loop fuel attempt delay w = Some (Ok v, w')
      /\ calls w' = (calls w + S j)%nat
      /\ draws w' = (draws w + j)%nat
      /\ baseDelays w' = (baseDelays w ++ nextDelays maxDelay j delay)%list.
Proof.
  induction j as [|j IH]; intros fuel attempt delay w Hlt Hfuel Hfail Hok;
    (destruct fuel as [|fuel]; [lia|]); cbn [Backoff.loop];
    (destruct (attempt <? n)%Z eqn:Hltb; [|apply Z.ltb_ge in Hltb; lia]);
    unfold invoke.
  - rewrite Nat.add_0_r in Hok. rewrite Hok.
    exists {| calls := S (calls w); draws := draws w; events := events w |}.
    unfold baseDelays. cbn. rewrite app_nil_r. repeat split; lia.
  - pose proof (Hfail 0%nat ltac:(lia)) as H0. rewrite Nat.add_0_r in H0.
    destruct (fn (calls w)) as [v0|e]; [discriminate|].
    destruct (attempt + 1 >=? n)%Z eqn:Hge;
      [rewrite Z.geb_leb in Hge; apply Z.leb_le in Hge; lia|].
    match goal with |- context [Backoff.pause ?a ?b ?c ?d ?w0] =>
      destruct (pause_runs a b c d w0) as (w2 & -> & Hc & Hdr & Hd) end.
    cbn in Hc, Hdr.
    destruct (IH fuel (attempt + 1)%Z (Z.min (delay * 2) maxDelay) w2)
      as (w' & -> & Hcalls & Hdraws & Hdelays).
    + lia.
    + lia.
    + intros i Hi. rewrite Hc.
      replace (S (calls w) + i)%nat with (calls w + S i)%nat by lia.
      apply Hfail. lia.
    + rewrite Hc. replace (S (calls w) + j)%nat with (calls w + S j)%nat by lia.
      exact Hok.
    + exists w'. split; [reflexivity|]. rewrite Hc in Hcalls.
      rewrite Hdr in Hdraws. split; [lia|]. split; [lia|].
      rewrite Hdelays, Hd. cbn. now rewrite <- app_assoc.
Qed.

(** Every timer of a run is within its bounds, when the draws are in
    [0, 1] and neither the delay nor the cap is negative. *)
Lemma loop_timers_within_bounds (fuel : nat) :
  (0 <= maxDelay)%Z ->
  (forall i, (0 <= random i)%Q /\ (random i <= 1)%Q) ->
  forall (attempt delay : Z) (w : World),
    (0 <= delay)%Z ->
    (Z.to_nat (n - attempt) < fuel)%nat ->
    exists r w' added,
      loop fuel attempt delay w = Some (r, w')
      /\ eventsAdded w w' added
      /\ Forall (timerWithinBounds maxDelay) added.
Proof.
  intros Hcap Hrandom.
  induction fuel as [|fuel IH]; intros attempt delay w Hdelay Hfuel; [lia|].
  cbn [Backoff.loop]. unfold eventsAdded.
  destruct (attempt <? n)%Z eqn:Hltb.
  2:{ eexists _, w, []. rewrite app_nil_r. repeat split. constructor. }
  apply Z.ltb_lt in Hltb.
  unfold invoke. destruct (fn (calls w)) as [v|e].
  { eexists _, _, []. cbn. rewrite app_nil_r. repeat split. constructor. }
  destruct (attempt + 1 >=? n)%Z eqn:Hge.
  { eexists _, _, []. cbn. rewrite app_nil_r. repeat split. constructor. }
  rewrite Z.geb_leb in Hge. apply Z.leb_gt in Hge.
  match goal with |- context [Backoff.pause ?a ?b ?c ?d ?w0] =>
    destruct (pause_events a b c d w0) as (w2 & msg & -> & _ & _ & Hev) end.
  cbn in Hev.
  assert (Hd' : (0 <= Z.min (delay * 2) maxDelay)%Z) by lia.
  destruct (IH (attempt + 1)%Z (Z.min (delay * 2) maxDelay) w2 Hd')
    as (r & w' & added & -> & Hadded & Hall); [lia|].
  unfold eventsAdded in Hadded.
  eexists r, w', (_ :: _ :: added). split; [reflexivity|].
  split; [rewrite Hadded, Hev, <- app_assoc; reflexivity|].
  constructor; [exact I|]. constructor; [|exact Hall].
  cbn. split; [lia|].
  destruct (Hrandom (draws w)) as [Hr0 Hr1].
  assert (HD : (0 <= inject_Z (Z.min (delay * 2) maxDelay))%Q)
    by (change 0%Q with (inject_Z 0); rewrite <- Zle_Qle; exact Hd').
  set (D := inject_Z (Z.min (delay * 2) maxDelay)) in *.
  set (r0 := random (draws w)) in *.
  split; nra.
Qed.

End BackoffMore.

(** X1: when the operation fails [j] times and then answers, with [j] less
    than the attempts configured, [withBackoff] returns that answer after
    exactly [j + 1] invocations, having waited [j] times, the base delays
    being the successive doublings capped at [maxDelay]. *)
Theorem withBackoff_succeeds_after_failures {T : Type}
  (n maxDelay startingDelay : Z) (random : nat -> Q) (fn : nat -> Result T)
  (j : nat) (v : T) (w : World) :
  (Z.of_nat j < n)%Z ->
  (forall i, (i < j)%nat -> isOk (fn (calls w + i)) = false) ->
  fn (calls w + j) = Ok v ->
  exists w',
    Backoff.withBackoff n maxDelay startingDelay random fn w = Some (Ok v, w')
    /\ calls w' = (calls w + S j)%nat
    /\ draws w' = (draws w + j)%nat
    /\ baseDelays w'
       = (baseDelays w ++ nextDelays maxDelay j startingDelay)%list.
Proof.
  intros Hj Hfail Hok. unfold Backoff.withBackoff.
  apply loop_succeeds_after; [lia|unfold Backoff.fuelFor; lia|exact Hfail|exact Hok].
Qed.

Lemma withBackoff_succeeds_after_failures_witness :
  (Z.of_nat 2 < 3)%Z
  /\ exists w',
       Backoff.withBackoff 3 5000 1000 noJitter
         (fun i => if (i <? 2)%nat then Throw networkError else Ok i) World0
       = Some (Ok 2%nat, w')
       /\ calls w' = 3%nat
       /\ draws w' = 2%nat
       /\ baseDelays w' = [2000%Z; 4000%Z].
Proof.
  split; [lia|].
  apply (withBackoff_succeeds_after_failures 3 5000 1000 noJitter
           (fun i => if (i <? 2)%nat then Throw networkError else Ok i)
           2 2%nat World0).
  - lia.
  - intros i Hi. cbn. destruct i as [|[|i]]; [reflexivity|reflexivity|lia].
  - reflexivity.
Defined.

(** X2: with at least one attempt configured and whatever the operation
    does, [withBackoff] invokes it at least once and at most [numOfAttempts]
    times, waits exactly once between two invocations, and returns what the
    last invocation returned. *)
Theorem withBackoff_invocations_bounded {T : Type}
  (n maxDelay startingDelay : Z) (random : nat -> Q) (fn : nat -> Result T)
  (w : World) :
  (1 <= n)%Z ->
  exists w' k,
    Backoff.withBackoff n maxDelay startingDelay random fn w
    = Some (fn (calls w' - 1), w')
    /\ (1 <= k <= Z.to_nat n)%nat
    /\ calls w' = (calls w + k)%nat
    /\ draws w' = (draws w + (k - 1))%nat
    /\ baseDelays w'
       = (baseDelays w ++ nextDelays maxDelay (k - 1) startingDelay)%list.
Proof.
  intros Hn. unfold Backoff.withBackoff.
  destruct (loop_counts n maxDelay random fn (Backoff.fuelFor n) 0%Z
              startingDelay w) as (w' & k & H); [lia|unfold Backoff.fuelFor; lia|].
  exists w', k. rewrite Z.sub_0_r in H. exact H.
Qed.

Lemma withBackoff_invocations_bounded_witness :
  (1 <= 3)%Z
  /\ exists w' k,
       Backoff.withBackoff 3 5000 1000 noJitter
         (fun i => if (i <? 1)%nat then Throw networkError else Ok i) World0
       = Some ((fun i => if (i <? 1)%nat then Throw networkError else Ok i)
                 (calls w' - 1)%nat, w')
       /\ (1 <= k <= Z.to_nat 3)%nat
       /\ calls w' = (calls World0 + k)%nat
       /\ draws w' = (draws World0 + (k - 1))%nat
       /\ baseDelays w'
          = (baseDelays World0 ++ nextDelays 5000 (k - 1) 1000)%list.
Proof.
  split; [lia|].
  apply (withBackoff_invocations_bounded 3 5000 1000 noJitter
           (fun i => if (i <? 1)%nat then Throw networkError else Ok i)
           World0).
  lia.
Defined.

(** X3: when [startingDelay] and [maxDelay] are not negative and
    [Math.random()] draws from [0, 1], every timer [withBackoff] arms has a
    base delay between 0 and [maxDelay] and a jitter between 0 and a tenth of
    that base delay: the wait is never shorter than the base delay and never
    longer than 1.1 times the cap. *)
Theorem withBackoff_timers_within_bounds {T : Type}
  (n maxDelay startingDelay : Z) (random : nat -> Q) (fn : nat -> Result T)
  (w : World) :
  (0 <= startingDelay)%Z ->
  (0 <= maxDelay)%Z ->
  (forall i, (0 <= random i)%Q /\ (random i <= 1)%Q) ->
  exists r w' added,
    Backoff.withBackoff n maxDelay startingDelay random fn w = Some (r, w')
    /\ eventsAdded w w' added
    /\ Forall (timerWithinBounds maxDelay) added.
Proof.
  intros Hs Hcap Hrandom. unfold Backoff.withBackoff.
  apply loop_timers_within_bounds; [exact Hcap|exact Hrandom|exact Hs|].
  unfold Backoff.fuelFor. lia.
Qed.

Lemma withBackoff_timers_within_bounds_witness :
  (0 <= 1000)%Z /\ (0 <= 5000)%Z
  /\ (forall i : nat, (0 <= (1 # 2))%Q /\ ((1 # 2) <= 1)%Q)
  /\ exists r w' added,
       Backoff.withBackoff 3 5000 1000 (fun _ => (1 # 2)%Q)
         (fun i => Throw (failsWithIndex i) : Result unit) World0
       = Some (r, w')
       /\ eventsAdded World0 w' added
       /\ Forall (timerWithinBounds 5000) added.
Proof.
  assert (H : forall i : nat, (0 <= (1 # 2))%Q /\ ((1 # 2) <= 1)%Q)
    by (intros _; split; discriminate).
  split; [lia|]. split; [lia|]. split; [exact H|].
  apply (withBackoff_timers_within_bounds 3 5000 1000 (fun _ => (1 # 2)%Q)
           (fun i => Throw (failsWithIndex i) : Result unit) World0);
    [lia|lia|exact H].
Defined.

(** ** More on the embedders *)

(** X4: a reply of Ollama that has no body or no [embedding] counts as a
    failed attempt like any other: when every reply is of that kind, with at
    least one attempt configured, [embed] makes exactly [numOfAttempts] POSTs
    and then throws "missing embedding". *)
Theorem ollama_embed_retries_malformed_replies (out : Outside)
  (n maxDelay startingDelay : Z) (baseUrl model text : string) (w : World) :
  (1 <= n)%Z ->
  (forall i req,
      exists reply,
        axiosEmbeddings out i req = Ok reply
        /\ (data reply = None
            \/ exists d, data reply = Some d /\ dataEmbedding d = None)) ->
  exists w',
    Ollama.embedWith out n maxDelay startingDelay baseUrl model text w
    = Some (Throw Ollama.missingEmbedding, w')
    /\ calls w' = (calls w + Z.to_nat n)%nat.
Proof.
  intros Hn Hreply.
  assert (Hfail : forall i, Ollama.embedAttempt out baseUrl model text i
                            = Throw ((fun _ => Ollama.missingEmbedding) i)).
  { intros i. unfold Ollama.embedAttempt.
    destruct (Hreply i {| embUrl := baseUrl ++ "/api/embeddings";
                          embModel := model; embPrompt := text |})
      as (reply & -> & [->|(d & -> & ->)]); reflexivity. }
  unfold Ollama.embedWith, Ollama.embedText, Backoff.withBackoff.
  destruct (loop_always_failing n maxDelay (random out) _ _ Hfail
              (Z.to_nat n - 1) (Backoff.fuelFor n) 0%Z startingDelay w)
    as (w' & -> & Hcalls & _); [lia|unfold Backoff.fuelFor; lia|].
  exists w'. split; [reflexivity|lia].
Qed.

Lemma ollama_embed_retries_malformed_replies_witness :
  (1 <= 3)%Z
  /\ (forall i req,
         exists reply,
           axiosEmbeddings noEmbedding i req = Ok reply
           /\ (data reply = None
               \/ exists d, data reply = Some d /\ dataEmbedding d = None))
  /\ exists w',
       Ollama.embedWith noEmbedding 3 5000 1000 "http://localhost:11434"
         "nomic-embed-text" "text" World0
       = Some (Throw Ollama.missingEmbedding, w')
       /\ calls w' = (calls World0 + Z.to_nat 3)%nat.
Proof.
  assert (H : forall i req,
             exists reply,
               axiosEmbeddings noEmbedding i req = Ok reply
               /\ (data reply = None
                   \/ exists d, data reply = Some d /\ dataEmbedding d = None)).
  { intros i req. eexists. split; [reflexivity|]. right. eexists.
    split; reflexivity. }
  split; [lia|]. split; [exact H|].
  apply (ollama_embed_retries_malformed_replies noEmbedding 3 5000 1000
           "http://localhost:11434" "nomic-embed-text" "text" World0);
    [lia|exact H].
Defined.

(** X5: when the first [j] POSTs of an Ollama embed call fail and the next
    reply carries an embedding, with [j] less than the attempts configured,
    [embed] returns that embedding as it is, an empty one included, after
    exactly [j + 1] POSTs. *)
Theorem ollama_embed_returns_first_embedding (out : Outside)
  (n maxDelay startingDelay : Z) (baseUrl model text : string) (w : World)
  (j : nat) (values : list Q) :
  (Z.of_nat j < n)%Z ->
  (forall i, (i < j)%nat ->
     isOk (axiosEmbeddings out (calls w + i)
             (embeddingsRequest baseUrl model text)) = false) ->
  axiosEmbeddings out (calls w + j) (embeddingsRequest baseUrl model text)
  = Ok {| data := Some {| dataEmbedding := Some values |} |} ->
  exists w',
    Ollama.embedWith out n maxDelay startingDelay baseUrl model text w
    = Some (Ok {| embedding := values |}, w')
    /\ calls w' = (calls w + S j)%nat.
Proof.
  intros Hj Hfail Hok.
  unfold Ollama.embedWith, Ollama.embedText, Backoff.withBackoff.
  destruct (loop_succeeds_after n maxDelay (random out)
              (Ollama.embedAttempt out baseUrl model text) values
              j (Backoff.fuelFor n) 0%Z startingDelay w)
    as (w' & -> & Hcalls & _).
  - lia.
  - unfold Backoff.fuelFor. lia.
  - intros i Hi. unfold Ollama.embedAttempt.
    specialize (Hfail i Hi). unfold embeddingsRequest in Hfail.
    destruct (axiosEmbeddings out (calls w + i) _); [discriminate|reflexivity].
  - unfold Ollama.embedAttempt. unfold embeddingsRequest in Hok.
    now rewrite Hok.
  - exists w'. split; [reflexivity|exact Hcalls].
Qed.

Lemma ollama_embed_returns_first_embedding_witness :
  (Z.of_nat 2 < 3)%Z
  /\ exists w',
       Ollama.embedWith upAtThird 3 5000 1000 "http://localhost:11434"
         "nomic-embed-text" "text" World0
       = Some (Ok {| embedding := [1%Q; 2%Q] |}, w')
       /\ calls w' = 3%nat.
Proof.
  split; [lia|].
  apply (ollama_embed_returns_first_embedding upAtThird 3 5000 1000
           "http://localhost:11434" "nomic-embed-text" "text" World0 2
           [1%Q; 2%Q]).
  - lia.
  - intros i Hi. cbn. destruct i as [|[|i]]; [reflexivity|reflexivity|lia].
  - reflexivity.
Defined.

(** The options of [makeOllamaEmbedder] as a provider configuration. *)
Lemma orStr_default (o : option string) (dflt : string) :
  o <> Some "" -> orStr o dflt = default dflt o.
Proof.
  intros Ho. destruct o as [s|]; [|reflexivity]. cbn.
  destruct (String.eqb_spec s ""); [congruence|reflexivity].
Qed.

(** X6: the stand-alone [makeOllamaEmbedder] and
    [OllamaProvider.createEmbedder] build the same embedder from the same
    settings, whenever the base URL and the model are absent or not empty;
    [OllamaProvider.createEmbedder] then never throws and touches nothing. *)
Theorem ollama_embedders_agree (out : Outside)
  (options : Ollama.OllamaEmbedderOptions) (w : World) :
  Ollama.optBaseUrl options <> Some "" ->
  Ollama.optModel options <> Some "" ->
  Ollama.createEmbedder out
    {| apiKey := None;
       baseUrl := Ollama.optBaseUrl options;
       model := None;
       embeddingModel := Ollama.optModel options;
       timeout := None;
       numOfAttempts :=
         Ollama.optBackoffOptions options ≫= Ollama.boNumOfAttempts;
       maxDelay := Ollama.optBackoffOptions options ≫= Ollama.boMaxDelay;
       startingDelay :=
         Ollama.optBackoffOptions options ≫= Ollama.boStartingDelay |} w
  = (Ok (Ollama.makeOllamaEmbedder out options), w).
Proof.
  intros Hurl Hmodel.
  unfold Ollama.createEmbedder, Ollama.makeOllamaEmbedder,
    Ollama.backoffConstants, ret. cbn [baseUrl embeddingModel numOfAttempts
    maxDelay startingDelay].
  rewrite (orStr_default _ _ Hurl), (orStr_default _ _ Hmodel).
  destruct (Ollama.optBackoffOptions options) as [bo|]; reflexivity.
Qed.

Lemma ollama_embedders_agree_witness :
  Ollama.optBaseUrl customOptions <> Some ""
  /\ Ollama.optModel customOptions <> Some ""
  /\ Ollama.createEmbedder alwaysUp
       {| apiKey := None;
          baseUrl := Some "http://ollama:11434";
          model := None;
          embeddingModel := None;
          timeout := None;
          numOfAttempts := Some 0%Z;
          maxDelay := None;
          startingDelay := Some 500%Z |} World0
     = (Ok (Ollama.makeOllamaEmbedder alwaysUp customOptions), World0).
Proof.
  assert (H1 : Ollama.optBaseUrl customOptions <> Some "") by discriminate.
  assert (H2 : Ollama.optModel customOptions <> Some "") by discriminate.
  split; [exact H1|]. split; [exact H2|].
  exact (ollama_embedders_agree alwaysUp customOptions World0 H1 H2).
Defined.

(** X7: [embed] of the Gemini embedder makes exactly one call, whatever
    comes back: the values as they are when the call is answered, and
    otherwise a new error whose message is "Failed to generate embeddings: "
    followed by the message of the failure, without its code. *)
Theorem gemini_embed_single_call (out : Outside) (model text : string)
  (w : World) :
  (Gemini.embedWith out model text w).1
  = match embedContent out (calls w) model text with
    | Ok values => Ok {| embedding := values |}
    | Throw e =>
      Throw (newError ("Failed to generate embeddings: "
                         ++ template (errMessage e)))
    end
  /\ calls (Gemini.embedWith out model text w).2 = S (calls w).
Proof.
  unfold Gemini.embedWith, tryCatch, bind, invoke, consoleLog,
    consoleErrorWith, emit, ret, throw.
  cbn. destruct (embedContent out (calls w) model text); cbn; split; reflexivity.
Qed.

(** ** More on the chat adapters *)

(** What an Ollama chat call returns, by what the POST brings. *)
Lemma ollama_chat_outcome (out : Outside) (baseUrl model : string)
  (timeout : Z) (messages : list Message) (w : World) :
  exists w',
    Ollama.answerQuestionAwaitedWith out baseUrl model timeout messages w
    = (Ok match axiosGenerate out (calls w)
                  (Ollama.generateRequest baseUrl model timeout
                     (Ollama.promptOf messages)) with
          | Ok reply =>
            match data reply with
            | Some d => {| resRole := "assistant"; resContent := dataResponse d |}
            | None => apologyFor false
            end
          | Throw e => apologyFor (Ollama.isTimeout e)
          end, w')
    /\ calls w' = S (calls w).
Proof.
  unfold Ollama.answerQuestionAwaitedWith, tryCatch, bind, invoke, consoleLog,
    consoleError, consoleErrorWith, emit, ret, throw, apologyFor.
  cbn. destruct (axiosGenerate out (calls w) _) as [reply|e]; cbn.
  - destruct (data reply); cbn; eexists; split; reflexivity.
  - destruct (Ollama.isTimeout e); cbn; eexists; split; reflexivity.
Qed.

(** What a Gemini chat call returns, by what the race and [text()] bring. *)
Lemma gemini_chat_outcome (out : Outside) (model : string) (timeout : Z)
  (messages : list Message) (chat : list GeminiMessage) (w : World) :
  Gemini.chatMessagesOf messages = Ok chat ->
  exists w',
    Gemini.answerQuestionAwaitedWith out model timeout messages w
    = (Ok match Gemini.race (generateContent out (calls w) model chat timeout)
            with
          | Ok result =>
            match responseText result with
            | Ok text => {| resRole := "assistant"; resContent := text |}
            | Throw e => apologyFor (Gemini.isTimeout e)
            end
          | Throw e => apologyFor (Gemini.isTimeout e)
          end, w')
    /\ calls w' = S (calls w).
Proof.
  intros Hchat.
  unfold Gemini.answerQuestionAwaitedWith, tryCatch, bind, invoke, consoleLog,
    consoleError, consoleErrorWith, emit, ret, throw, liftResult, apologyFor.
  cbn. rewrite Hchat. cbn.
  destruct (Gemini.race _) as [result|e]; cbn.
  - destruct (responseText result) as [text|e]; cbn;
      [eexists; split; reflexivity|].
    destruct (Gemini.isTimeout e); cbn; eexists; split; reflexivity.
  - destruct (Gemini.isTimeout e); cbn; eexists; split; reflexivity.
Qed.

(** X8: whatever the backend does (answer, answer without a body, reject,
    time out, throw from [text()]), [answerQuestionAwaited] of the Ollama
    and of the Gemini adapter throws nothing, returns an assistant turn, and
    has made exactly one call to the backend: a chat call is never retried. *)
Theorem chat_never_raises_and_calls_once (out : Outside)
  (baseUrl model : string) (timeout : Z) (messages : list Message)
  (w : World) :
  (exists r w',
      Ollama.answerQuestionAwaitedWith out baseUrl model timeout messages w
      = (Ok r, w')
      /\ resRole r = "assistant" /\ calls w' = S (calls w))
  /\ (exists r w',
         Gemini.answerQuestionAwaitedWith out model timeout messages w
         = (Ok r, w')
         /\ resRole r = "assistant" /\ calls w' = S (calls w)).
Proof.
  split.
  - destruct (ollama_chat_outcome out baseUrl model timeout messages w)
      as (w' & Hrun & Hcalls).
    eexists _, w'. split; [exact Hrun|]. split; [|exact Hcalls].
    destruct (axiosGenerate _ _ _) as [reply|e]; [destruct (data reply)|];
      reflexivity.
  - destruct (chatMessagesOf_total messages) as (chat & Hchat).
    destruct (gemini_chat_outcome out model timeout messages chat w Hchat)
      as (w' & Hrun & Hcalls).
    eexists _, w'. split; [exact Hrun|]. split; [|exact Hcalls].
    destruct (Gemini.race _) as [result|e];
      [destruct (responseText result)|]; reflexivity.
Qed.

(** X9: when the backend answers, the text of the answer is returned as it
    is, with the role assistant: the [response] field of the body for
    Ollama, the result of [text()] for Gemini, which is sent the output of
    the normalizer. *)
Theorem chat_returns_backend_text (out : Outside) (baseUrl model : string)
  (timeout : Z) (messages : list Message) (chat : list GeminiMessage)
  (w : World) (answer : string) :
  axiosGenerate out (calls w)
    (Ollama.generateRequest baseUrl model timeout (Ollama.promptOf messages))
  = Ok {| data := Some {| dataResponse := answer |} |} ->
  Gemini.chatMessagesOf messages = Ok chat ->
  generateContent out (calls w) model chat timeout
  = Resolves {| responseText := Ok answer |} ->
  (Ollama.answerQuestionAwaitedWith out baseUrl model timeout messages w).1
  = Ok {| resRole := "assistant"; resContent := answer |}
  /\ (Gemini.answerQuestionAwaitedWith out model timeout messages w).1
     = Ok {| resRole := "assistant"; resContent := answer |}.
Proof.
  intros Hollama Hchat Hgemini. split.
  - destruct (ollama_chat_outcome out baseUrl model timeout messages w)
      as (w' & -> & _).
    now rewrite Hollama.
  - destruct (gemini_chat_outcome out model timeout messages chat w Hchat)
      as (w' & -> & _).
    now rewrite Hgemini.
Qed.

Lemma chat_returns_backend_text_witness :
  axiosGenerate alwaysUp (calls World0)
    (Ollama.generateRequest "http://localhost:11434" "llama3" 60000
       (Ollama.promptOf systemThenUser))
  = Ok {| data := Some {| dataResponse := "Hello" |} |}
  /\ Gemini.chatMessagesOf systemThenUser
     = Ok [ {| gRole := "user";
               gText := "[System Instructions: A]" ++ nl ++ nl ++ "B" |} ]
  /\ (Ollama.answerQuestionAwaitedWith alwaysUp "http://localhost:11434"
        "llama3" 60000 systemThenUser World0).1
     = Ok {| resRole := "assistant"; resContent := "Hello" |}
  /\ (Gemini.answerQuestionAwaitedWith alwaysUp "llama3" 60000
        systemThenUser World0).1
     = Ok {| resRole := "assistant"; resContent := "Hello" |}.
Proof.
  split; [reflexivity|]. split; [reflexivity|].
  apply (chat_returns_backend_text alwaysUp "http://localhost:11434" "llama3"
           60000 systemThenUser
           [ {| gRole := "user";
                gText := "[System Instructions: A]" ++ nl ++ nl ++ "B" |} ]
           World0 "Hello"); reflexivity.
Defined.

(** X10: an answer of Ollama that has no body at all ([response.data] is
    [undefined]) is answered with the technical apology, and a Gemini result
    whose [text()] throws is answered with the apology for the kind of the
    error it throws: in both cases the error raised while reading the answer
    is caught and nothing is thrown. *)
Theorem unusable_reply_degrades_to_apology (out : Outside)
  (baseUrl model : string) (timeout : Z) (messages : list Message)
  (chat : list GeminiMessage) (w : World) (e : JsError) :
  axiosGenerate out (calls w)
    (Ollama.generateRequest baseUrl model timeout (Ollama.promptOf messages))
  = Ok {| data := None |} ->
  Gemini.chatMessagesOf messages = Ok chat ->
  generateContent out (calls w) model chat timeout
  = Resolves {| responseText := Throw e |} ->
  (Ollama.answerQuestionAwaitedWith out baseUrl model timeout messages w).1
  = Ok (apologyFor false)
  /\ (Gemini.answerQuestionAwaitedWith out model timeout messages w).1
     = Ok (apologyFor (Gemini.isTimeout e)).
Proof.
  intros Hollama Hchat Hgemini. split.
  - destruct (ollama_chat_outcome out baseUrl model timeout messages w)
      as (w' & -> & _).
    now rewrite Hollama.
  - destruct (gemini_chat_outcome out model timeout messages chat w Hchat)
      as (w' & -> & _).
    now rewrite Hgemini.
Qed.

Lemma unusable_reply_degrades_to_apology_witness :
  axiosGenerate noEmbedding (calls World0)
    (Ollama.generateRequest "http://localhost:11434" "llama3" 60000
       (Ollama.promptOf systemThenUser))
  = Ok {| data := None |}
  /\ (Ollama.answerQuestionAwaitedWith noEmbedding "http://localhost:11434"
        "llama3" 60000 systemThenUser World0).1
     = Ok (apologyFor false)
  /\ (Gemini.answerQuestionAwaitedWith noEmbedding "llama3" 60000
        systemThenUser World0).1
     = Ok (apologyFor false).
Proof.
  split; [reflexivity|].
  apply (unusable_reply_degrades_to_apology noEmbedding
           "http://localhost:11434" "llama3" 60000 systemThenUser
           [ {| gRole := "user";
                gText := "[System Instructions: A]" ++ nl ++ nl ++ "B" |} ]
           World0 networkError); reflexivity.
Defined.

(** X11: a Gemini request that is still pending when the timer fires is
    answered with the timeout apology, for every conversation, model and
    deadline, and the timeout is logged; an Ollama POST that axios aborts
    (code ECONNABORTED) is answered with the timeout apology whatever its
    message. *)
Theorem deadline_gives_timeout_apology (out : Outside)
  (baseUrl model : string) (timeout : Z) (messages : list Message)
  (w : World) (message : option string) :
  geminiFailsWith out (calls w) Gemini.timedOut ->
  ollamaFailsWith out (calls w)
    {| errCode := Some "ECONNABORTED"; errMessage := message |} ->
  (exists w',
      Gemini.answerQuestionAwaitedWith out model timeout messages w
      = (Ok (apologyFor true), w')
      /\ last (events w') = Some (ConsoleError "Gemini API call timed out"))
  /\ (exists w',
         Ollama.answerQuestionAwaitedWith out baseUrl model timeout messages w
         = (Ok (apologyFor true), w')
         /\ last (events w') = Some (ConsoleError "Ollama API call timed out")).
Proof.
  intros Hgemini Hollama. split.
  - destruct (chatMessagesOf_total messages) as (chat & Hchat).
    destruct (gemini_chat_degrades out model timeout messages chat w
                Gemini.timedOut Hchat (Hgemini _ _ _)) as (w' & Hrun & _ & Hlast).
    exists w'. split; [exact Hrun|exact Hlast].
  - destruct (ollama_chat_degrades out baseUrl model timeout messages w _
                (Hollama _)) as (w' & Hrun & _ & Hlast).
    exists w'. split; [exact Hrun|exact Hlast].
Qed.

Lemma deadline_gives_timeout_apology_witness :
  geminiFailsWith timesOut (calls World0) Gemini.timedOut
  /\ ollamaFailsWith timesOut (calls World0)
       {| errCode := Some "ECONNABORTED";
          errMessage := Some "timeout of 60000ms exceeded" |}
  /\ (exists w',
         Gemini.answerQuestionAwaitedWith timesOut "gemini-pro" 60000
           systemThenUser World0
         = (Ok (apologyFor true), w')
         /\ last (events w') = Some (ConsoleError "Gemini API call timed out"))
  /\ (exists w',
         Ollama.answerQuestionAwaitedWith timesOut "http://localhost:11434"
           "gemini-pro" 60000 systemThenUser World0
         = (Ok (apologyFor true), w')
         /\ last (events w') = Some (ConsoleError "Ollama API call timed out")).
Proof.
  assert (H1 : geminiFailsWith timesOut (calls World0) Gemini.timedOut)
    by (intros ? ? ?; reflexivity).
  assert (H2 : ollamaFailsWith timesOut (calls World0)
                 {| errCode := Some "ECONNABORTED";
                    errMessage := Some "timeout of 60000ms exceeded" |})
    by (intros ?; reflexivity).
  split; [exact H1|]. split; [exact H2|].
  exact (deadline_gives_timeout_apology timesOut "http://localhost:11434"
           "gemini-pro" 60000 systemThenUser World0 _ H1 H2).
Defined.

(** ** The Streaming Shim *)

(** An iterator that has yielded stays finished. *)
Lemma next_exhausted (it : Shim.Iterator) (k : nat) :
  Shim.itDone it = true ->
  Shim.next (Nat.iter k (fun i => (Shim.next i).2) it) = (Shim.Finished, it).
Proof.
  intros Hdone.
  assert (Hnext : Shim.next it = (Shim.Finished, it))
    by (unfold Shim.next; now rewrite Hdone).
  assert (Hiter : Nat.iter k (fun i => (Shim.next i).2) it = it).
  { induction k as [|k IH]; [reflexivity|].
    rewrite Nat.iter_succ, IH, Hnext. reflexivity. }
  now rewrite Hiter.
Qed.

(** X12: iterating the object [answerQuestionStream] returns yields exactly
    one chunk, whose [choices[0].delta.content] is the content of the
    response it wraps; the iterator is then finished and stays so however
    often [next()] is called, while a second [for await] over the same
    object gets the chunk again. *)
Theorem stream_yields_one_chunk (stream : Shim.AsyncIterable) (fuel k : nat) :
  (2 <= fuel)%nat ->
  exists chunk,
    Shim.forAwait fuel stream = Some [chunk]
    /\ Shim.chunkContent chunk
       = Some (resContent (Shim.iterableResponse stream))
    /\ length (Shim.choices chunk) = 1%nat
    /\ Shim.next (Shim.asyncIterator stream)
       = (Shim.Yielded chunk,
          {| Shim.itResponse := Shim.iterableResponse stream;
             Shim.itDone := true |})
    /\ (Shim.next
          (Nat.iter (S k) (fun it => (Shim.next it).2)
             (Shim.asyncIterator stream))).1
       = Shim.Finished.
Proof.
  intros Hfuel. destruct fuel as [|[|fuel]]; [lia|lia|].
  eexists. repeat split.
  rewrite Nat.iter_succ_r. cbn [Shim.next Shim.asyncIterator Shim.itDone snd].
  now rewrite next_exhausted.
Qed.

Lemma stream_yields_one_chunk_witness :
  (2 <= 2)%nat
  /\ exists chunk,
       Shim.forAwait 2 {| Shim.iterableResponse := apologyFor true |}
       = Some [chunk]
       /\ Shim.chunkContent chunk = Some timeoutApology.
Proof.
  split; [lia|].
  destruct (stream_yields_one_chunk
              {| Shim.iterableResponse := apologyFor true |} 2 0
              ltac:(lia)) as (chunk & H1 & H2 & _).
  exists chunk. split; [exact H1|exact H2].
Defined.

(** X13: [answerQuestionStream] of the Ollama and of the Gemini adapter
    throws nothing whatever the backend does, makes one call to the backend,
    and wraps exactly what [answerQuestionAwaited] returns in the same
    world: the only chunk carries that content, an apology when the backend
    failed. *)
Theorem stream_wraps_awaited_answer (out : Outside) (baseUrl model : string)
  (timeout : Z) (messages : list Message) (w : World) :
  (exists r w',
      Ollama.answerQuestionAwaitedWith out baseUrl model timeout messages w
      = (Ok r, w')
      /\ Shim.answerQuestionStream
           (Ollama.answerQuestionAwaitedWith out baseUrl model timeout)
           messages w
         = (Ok {| Shim.iterableResponse := r |}, w')
      /\ (Shim.forAwait 2 {| Shim.iterableResponse := r |}
            ≫= mapM Shim.chunkContent) = Some [resContent r]
      /\ streamOf (Ollama.answerQuestionAwaitedWith out baseUrl model timeout)
           messages w
         = (Ok [resContent r], w')
      /\ calls w' = S (calls w))
  /\ (exists r w',
         Gemini.answerQuestionAwaitedWith out model timeout messages w
         = (Ok r, w')
         /\ Shim.answerQuestionStream
              (Gemini.answerQuestionAwaitedWith out model timeout) messages w
            = (Ok {| Shim.iterableResponse := r |}, w')
         /\ (Shim.forAwait 2 {| Shim.iterableResponse := r |}
               ≫= mapM Shim.chunkContent) = Some [resContent r]
         /\ streamOf (Gemini.answerQuestionAwaitedWith out model timeout)
              messages w
            = (Ok [resContent r], w')
         /\ calls w' = S (calls w)).
Proof.
  destruct (ollama_chat_outcome out baseUrl model timeout messages w)
    as (wo & Ho & Hco).
  destruct (chatMessagesOf_total messages) as (chat & Hchat).
  destruct (gemini_chat_outcome out model timeout messages chat w Hchat)
    as (wg & Hg & Hcg).
  match type of Ho with _ = (Ok ?r, _) => set (ro := r) in * end.
  match type of Hg with _ = (Ok ?r, _) => set (rg := r) in * end.
  split.
  - exists ro, wo. unfold Shim.answerQuestionStream, streamOf, bind.
    rewrite Ho. repeat split. exact Hco.
  - exists rg, wg. unfold Shim.answerQuestionStream, streamOf, bind.
    rewrite Hg. repeat split. exact Hcg.
Qed.

(** ** More on the Message Normalizer *)

Lemma filter_all {A : Type} (P : A -> Prop) `{!forall x, Decision (P x)}
  (l : list A) :
  (forall x, x ∈ l -> P x) -> filter P l = l.
Proof.
  induction l as [|a l IH]; intros Hall; [reflexivity|].
  rewrite filter_cons_True by (apply Hall, elem_of_cons; now left).
  rewrite IH; [reflexivity|].
  intros x Hx. apply Hall, elem_of_cons. now right.
Qed.

Lemma filter_none {A : Type} (P : A -> Prop) `{!forall x, Decision (P x)}
  (l : list A) :
  (forall x, x ∈ l -> ~ P x) -> filter P l = [].
Proof.
  induction l as [|a l IH]; intros Hnone; [reflexivity|].
  rewrite filter_cons_False by (apply Hnone, elem_of_cons; now left).
  apply IH. intros x Hx. apply Hnone, elem_of_cons. now right.
Qed.

(** X14: a conversation without a system message is handed over unchanged
    but for the one renaming of the role [assistant] to [model]: same
    length, same order, same texts. *)
Theorem no_system_message_only_renames (messages : list Message) :
  (forall m, m ∈ messages -> role m <> "system") ->
  Gemini.chatMessagesOf messages = Ok (Gemini.toGemini <$> messages)
  /\ (forall j m, messages !! j = Some m ->
        exists g, (Gemini.toGemini <$> messages) !! j = Some g
                  /\ gText g = content m
                  /\ gRole g = if String.eqb (role m) "assistant"
                               then "model" else role m).
Proof.
  intros Hnone. split.
  - rewrite chatMessagesOf_unfold. cbv zeta.
    rewrite (filter_none (fun m => role m = "system"))
      by (intros x Hx; now apply Hnone).
    rewrite (filter_all (fun m => role m <> "system")) by exact Hnone.
    reflexivity.
  - intros j m Hm. exists (Gemini.toGemini m).
    rewrite list_lookup_fmap, Hm. repeat split.
Qed.

Lemma no_system_message_only_renames_witness :
  (forall m, m ∈ [ {| role := "user"; content := "Hi" |};
                   {| role := "assistant"; content := "Hello" |} ] ->
     role m <> "system")
  /\ Gemini.chatMessagesOf
       [ {| role := "user"; content := "Hi" |};
         {| role := "assistant"; content := "Hello" |} ]
     = Ok [ {| gRole := "user"; gText := "Hi" |};
            {| gRole := "model"; gText := "Hello" |} ].
Proof.
  assert (H : forall m, m ∈ [ {| role := "user"; content := "Hi" |};
                              {| role := "assistant"; content := "Hello" |} ] ->
                        role m <> "system").
  { intros m Hm. rewrite !elem_of_cons, elem_of_nil in Hm.
    destruct Hm as [->|[->|[]]]; discriminate. }
  split; [exact H|].
  exact (proj1 (no_system_message_only_renames _ H)).
Defined.

Lemma toGemini_not_assistant (m : Message) :
  gRole (Gemini.toGemini m) <> "assistant".
Proof.
  unfold Gemini.toGemini. cbn.
  destruct (String.eqb_spec (role m) "assistant"); [discriminate|assumption].
Qed.

(** X15: for every conversation the normalizer returns one message for each
    message that is not a system message, in the same order and with the
    same role (but [model] for [assistant]); no message it returns has the
    role [system] or [assistant]; and the text of each ends with the content
    of the message it comes from, so that nothing of the non-system content
    is lost or moved. *)
Theorem normalizer_keeps_non_system_messages (messages : list Message) :
  exists chat,
    Gemini.chatMessagesOf messages = Ok chat
    /\ gRole <$> chat
       = gRole <$> (Gemini.toGemini
                      <$> filter (fun m => role m <> "system") messages)
    /\ Forall (fun g => gRole g <> "system" /\ gRole g <> "assistant") chat
    /\ (forall j g, chat !! j = Some g ->
          exists m before,
            filter (fun m => role m <> "system") messages !! j = Some m
            /\ gText g = before ++ content m).
Proof.
  rewrite chatMessagesOf_unfold. cbv zeta.
  set (rest := Gemini.toGemini <$> filter (fun m => role m <> "system") messages).
  assert (Hroles : Forall (fun g => gRole g <> "system" /\ gRole g <> "assistant")
                     rest).
  { apply Forall_forall. intros g Hg.
    apply list_elem_of_fmap in Hg as (m & -> & Hm).
    apply list_elem_of_filter in Hm as (Hns & _).
    split; [now rewrite toGemini_system|apply toGemini_not_assistant]. }
  assert (Htexts : forall j g, rest !! j = Some g ->
            exists m before,
              filter (fun m => role m <> "system") messages !! j = Some m
              /\ gText g = before ++ content m).
  { intros j g Hg. unfold rest in Hg. rewrite list_lookup_fmap in Hg.
    destruct (filter _ messages !! j) as [m|] eqn:Hm; [|discriminate].
    injection Hg as <-. exists m, "". split; reflexivity. }
  destruct (_ && _); [|exists rest; repeat split; assumption].
  destruct (list_find _ rest) as [[i firstUser]|] eqn:Hfind;
    [|exists rest; repeat split; assumption].
  apply list_find_Some in Hfind as (Hlook & Hrole & _).
  eexists. split; [reflexivity|]. split; [|split].
  - rewrite list_fmap_insert. cbn. apply list_insert_id.
    now rewrite list_lookup_fmap, Hlook.
  - apply Forall_insert; [exact Hroles|]. cbn.
    exact (Forall_lookup_1 _ _ _ _ Hroles Hlook).
  - intros j g Hg. destruct (decide (i = j)) as [<-|Hne].
    + rewrite list_lookup_insert_eq in Hg by (now apply lookup_lt_Some in Hlook).
      injection Hg as <-. cbn.
      destruct (Htexts i firstUser Hlook) as (m & before & Hm & Htext).
      exists m. eexists. split; [exact Hm|].
      unfold Gemini.systemInstructions. rewrite Htext.
      rewrite <- !append_assoc. reflexivity.
    + rewrite list_lookup_insert_ne in Hg by exact Hne. now apply Htexts.
Qed.

Lemma append_nil_r (s : string) : s ++ "" = s.
Proof.
  induction s as [|a s IH]; [reflexivity|]. now rewrite append_cons, IH.
Qed.

Lemma concat_occurs (sep x : string) (l : list string) :
  x ∈ l -> occursIn x (String.concat sep l).
Proof.
  induction l as [|y l IH]; intros Hx; [now apply elem_of_nil in Hx|].
  apply elem_of_cons in Hx as [->|Hx].
  - destruct l as [|z l]; cbn [String.concat].
    + exists "", "". now rewrite append_nil_r.
    + exists "", (sep ++ String.concat sep (z :: l)). reflexivity.
  - destruct (IH Hx) as (before & after & Heq).
    destruct l as [|z l]; [now apply elem_of_nil in Hx|].
    change (String.concat sep (y :: z :: l))
      with (y ++ sep ++ String.concat sep (z :: l)).
    rewrite Heq.
    exists (y ++ sep ++ before), after. now rewrite !append_assoc.
Qed.

(** X16: when the conversation has a user message, no system content is
    lost: the content of every system message occurs in the text of a
    message the normalizer returns. *)
Theorem system_content_kept_with_user (messages : list Message)
  (s : Message) :
  (exists u, u ∈ messages /\ role u = "user") ->
  s ∈ messages -> role s = "system" ->
  exists chat g,
    Gemini.chatMessagesOf messages = Ok chat
    /\ g ∈ chat
    /\ gRole g = "user"
    /\ occursIn (content s) (gText g).
Proof.
  intros (u & Hu & Hurole) Hs Hsrole.
  rewrite chatMessagesOf_unfold. cbv zeta.
  set (systemMessages := filter (fun m => role m = "system") messages).
  set (rest := Gemini.toGemini <$> filter (fun m => role m <> "system") messages).
  assert (Hsin : s ∈ systemMessages) by (apply list_elem_of_filter; auto).
  assert (Huin : Gemini.toGemini u ∈ rest).
  { apply list_elem_of_fmap_2, list_elem_of_filter. split; [|exact Hu].
    rewrite Hurole. discriminate. }
  assert (Hlen : ((0 <? length systemMessages)%nat
                  && (0 <? length rest)%nat) = true).
  { apply andb_true_intro. split; apply Nat.ltb_lt.
    - destruct systemMessages; [now apply elem_of_nil in Hsin|cbn; lia].
    - destruct rest; [now apply elem_of_nil in Huin|cbn; lia]. }
  rewrite Hlen.
  destruct (list_find (fun msg => gRole msg = "user") rest)
    as [[i firstUser]|] eqn:Hfind.
  - apply list_find_Some in Hfind as (Hlook & Hrole & _).
    eexists _, _. split; [reflexivity|]. split; [|split].
    + apply list_elem_of_lookup_2 with i. apply list_lookup_insert_eq.
      now apply lookup_lt_Some in Hlook.
    + exact Hrole.
    + cbn. unfold Gemini.systemInstructions.
      destruct (concat_occurs nlnl (content s) (content <$> systemMessages))
        as (before & after & Heq); [now apply list_elem_of_fmap_2|].
      unfold join. rewrite Heq.
      exists ("[System Instructions: " ++ before),
        (after ++ "]" ++ nlnl ++ gText firstUser).
      now rewrite !append_assoc.
  - exfalso. apply list_find_None in Hfind.
    rewrite Forall_forall in Hfind. apply (Hfind _ Huin).
    now apply toGemini_user.
Qed.

Lemma system_content_kept_with_user_witness :
  (exists u, u ∈ systemThenUser /\ role u = "user")
  /\ {| role := "system"; content := "A" |} ∈ systemThenUser
  /\ exists chat g,
       Gemini.chatMessagesOf systemThenUser = Ok chat
       /\ g ∈ chat
       /\ gRole g = "user"
       /\ occursIn "A" (gText g).
Proof.
  assert (H1 : exists u, u ∈ systemThenUser /\ role u = "user").
  { exists {| role := "user"; content := "B" |}.
    split; [|reflexivity]. apply elem_of_cons. right.
    apply elem_of_cons. now left. }
  assert (H2 : {| role := "system"; content := "A" |} ∈ systemThenUser)
    by (apply elem_of_cons; now left).
  split; [exact H1|]. split; [exact H2|].
  exact (system_content_kept_with_user systemThenUser
           {| role := "system"; content := "A" |} H1 H2 eq_refl).
Defined.

(** ** The prompt of Ollama *)

Lemma promptBody_cons (m : Message) (l : list Message) :
  promptBody (m :: l) = renderTurn m ++ promptBody l.
Proof.
  unfold promptBody. destruct l as [|m' l]; cbn [fmap list_fmap String.concat].
  - now rewrite append_nil_r.
  - reflexivity.
Qed.

Lemma promptBody_app (before after : list Message) :
  promptBody (before ++ after) = promptBody before ++ promptBody after.
Proof.
  induction before as [|m before IH]; [reflexivity|].
  change ((m :: before) ++ after)%list with (m :: (before ++ after)%list).
  now rewrite !promptBody_cons, IH, append_assoc.
Qed.

Lemma promptOf_fold (messages : list Message) (prompt : string) :
  fold_left
    (fun prompt message =>
       if String.eqb (role message) "system" then
         prompt ++ "System: " ++ content message ++ nlnl
       else if String.eqb (role message) "user" then
         prompt ++ "User: " ++ content message ++ nlnl
       else if String.eqb (role message) "assistant" then
         prompt ++ "Assistant: " ++ content message ++ nlnl
       else prompt)
    messages prompt
  = prompt ++ promptBody messages.
Proof.
  revert prompt. induction messages as [|m messages IH]; intros prompt.
  - cbn. now rewrite append_nil_r.
  - cbn [fold_left]. rewrite IH, promptBody_cons.
    unfold renderTurn, promptLabel.
    destruct (String.eqb (role m) "system");
      [now rewrite !append_assoc|].
    destruct (String.eqb (role m) "user");
      [now rewrite !append_assoc|].
    destruct (String.eqb (role m) "assistant");
      [now rewrite !append_assoc|reflexivity].
Qed.

(** X17: the prompt sent to Ollama is the turns of the conversation in
    their order, each as its label, its content and a blank line, followed by
    "Assistant: "; the prompt of a conversation continued is the prompt body
    of its beginning followed by the prompt of its continuation; and a
    message whose role is none of system, user and assistant leaves no trace
    in it. *)
Theorem promptOf_is_labelled_turns (before after : list Message) :
  Ollama.promptOf (before ++ after)
  = promptBody before ++ Ollama.promptOf after
  /\ Ollama.promptOf after = promptBody after ++ "Assistant: "
  /\ Ollama.promptOf
       (filter (fun m => is_Some (promptLabel (role m))) after)
     = Ollama.promptOf after.
Proof.
  assert (Hprompt : forall l, Ollama.promptOf l = promptBody l ++ "Assistant: ").
  { intros l. unfold Ollama.promptOf. now rewrite promptOf_fold. }
  split; [|split].
  - now rewrite !Hprompt, promptBody_app, append_assoc.
  - apply Hprompt.
  - rewrite !Hprompt. f_equal.
    induction after as [|m after IH]; [reflexivity|].
    rewrite filter_cons, (promptBody_cons m after).
    destruct (decide (is_Some (promptLabel (role m)))) as [Hsome|Hnone].
    + now rewrite promptBody_cons, IH.
    + rewrite IH. unfold renderTurn.
      destruct (promptLabel (role m)); [exfalso; apply Hnone; eauto|reflexivity].
Qed.

(** ** More on the registry *)

(** X18: a name that is, once folded to lower case, the name of a provider
    resolves to that provider, however it is capitalised. *)
Theorem getLlmProvider_resolves_any_case (providerName : string)
  (p : Factory.LlmProvider) :
  toLowerCase providerName = Factory.getName p ->
  Factory.getLlmProvider providerName = Ok (Factory.Own p).
Proof.
  intros Hname. unfold Factory.getLlmProvider. rewrite Hname.
  destruct p; reflexivity.
Qed.

Lemma getLlmProvider_resolves_any_case_witness :
  toLowerCase "GeMiNi" = Factory.getName Factory.GeminiProvider
  /\ Factory.getLlmProvider "GeMiNi" = Ok (Factory.Own Factory.GeminiProvider).
Proof.
  split; [reflexivity|].
  apply (getLlmProvider_resolves_any_case "GeMiNi" Factory.GeminiProvider).
  reflexivity.
Defined.

Lemma getProperty_None (key : string) :
  key ∉ Factory.objectKeys Factory.providers ->
  key ∉ Factory.objectPrototypeKeys ->
  Factory.getProperty key = None.
Proof.
  intros Hown Hproto. unfold Factory.getProperty.
  assert (Howned : Factory.ownProperty Factory.providers key = None).
  { unfold Factory.objectKeys, Factory.providers in Hown.
    cbn [map fst] in Hown. rewrite !not_elem_of_cons in Hown.
    destruct Hown as (H1 & H2 & _).
    unfold Factory.providers. cbn [Factory.ownProperty].
    destruct (String.eqb_spec "ollama" key); [congruence|].
    destruct (String.eqb_spec "gemini" key); [congruence|reflexivity]. }
  rewrite Howned.
  destruct (existsb (String.eqb key) Factory.objectPrototypeKeys) eqn:Hex;
    [|reflexivity].
  apply existsb_exists in Hex as (k & Hk & Heq).
  apply String.eqb_eq in Heq. subst k.
  exfalso. apply Hproto. now apply list_elem_of_In.
Qed.

(** X19: a name that, folded to lower case, is neither a registered name nor
    a property of [Object.prototype] makes [getLlmProvider] throw an error
    whose message holds the name as it was given and every registered name;
    [createChatLlm] and [createEmbedder] of the factory throw the same error
    and touch nothing. *)
Theorem unknown_provider_is_rejected (out : Outside) (providerName : string)
  (config : LlmProviderConfig) (w : World) :
  toLowerCase providerName ∉ Factory.objectKeys Factory.providers ->
  toLowerCase providerName ∉ Factory.objectPrototypeKeys ->
  let error := newError (Factory.notFoundMessage providerName) in
  Factory.getLlmProvider providerName = Throw error
  /\ includes providerName (Factory.notFoundMessage providerName) = true
  /\ (forall name, name ∈ Factory.objectKeys Factory.providers ->
        includes name (Factory.notFoundMessage providerName) = true)
  /\ Factory.createChatLlm out providerName config w = (Throw error, w)
  /\ Factory.createEmbedder out providerName config w = (Throw error, w).
Proof.
  intros Hown Hproto error.
  pose proof (getProperty_None _ Hown Hproto) as Hnone.
  destruct (getLlmProvider_not_found providerName Hnone) as (Hthrow & Hnames).
  split; [exact Hthrow|]. split; [|split; [exact Hnames|]].
  - apply includes_occurs. unfold Factory.notFoundMessage.
    exists "LLM provider '". eexists. reflexivity.
  - unfold Factory.createChatLlm, Factory.createEmbedder.
    rewrite Hthrow. split; reflexivity.
Qed.

Lemma unknown_provider_is_rejected_witness :
  (toLowerCase "OpenAI" ∉ Factory.objectKeys Factory.providers)
  /\ (toLowerCase "OpenAI" ∉ Factory.objectPrototypeKeys)
  /\ Factory.getLlmProvider "OpenAI"
     = Throw (newError "LLM provider 'OpenAI' not found. Available providers: ollama, gemini")
  /\ Factory.createEmbedder alwaysUp "OpenAI" emptyConfig World0
     = (Throw (newError "LLM provider 'OpenAI' not found. Available providers: ollama, gemini"),
        World0).
Proof.
  assert (H1 : toLowerCase "OpenAI" ∉ Factory.objectKeys Factory.providers).
  { cbn. rewrite !not_elem_of_cons. repeat split; try discriminate.
    apply not_elem_of_nil. }
  assert (H2 : toLowerCase "OpenAI" ∉ Factory.objectPrototypeKeys).
  { unfold Factory.objectPrototypeKeys. cbn.
    rewrite !not_elem_of_cons. repeat split; try discriminate.
    apply not_elem_of_nil. }
  split; [exact H1|]. split; [exact H2|].
  destruct (unknown_provider_is_rejected alwaysUp "OpenAI" emptyConfig World0
              H1 H2) as (Hget & _ & _ & _ & Hemb).
  split; [exact Hget|exact Hemb].
Defined.

(** X20: building a capability fails exactly when the provider requires an
    API key and the configuration has none (or an empty one); failing or not,
    construction makes no call and logs nothing. *)
Theorem construction_fails_iff_key_required_and_missing (out : Outside)
  (p : Factory.LlmProvider) (config : LlmProviderConfig) (w : World) :
  isOk (Factory.providerCreateChatLlm out p config w).1
  = negb (Factory.requiresApiKey p && negb (truthyStr (apiKey config)))
  /\ isOk (Factory.providerCreateEmbedder out p config w).1
     = negb (Factory.requiresApiKey p && negb (truthyStr (apiKey config)))
  /\ (Factory.providerCreateChatLlm out p config w).2 = w
  /\ (Factory.providerCreateEmbedder out p config w).2 = w.
Proof.
  destruct p; cbn.
  - unfold Ollama.createChatLlm, Ollama.createEmbedder, ret. cbn.
    repeat split.
  - unfold Gemini.createChatLlm, Gemini.createEmbedder, ret, throw.
    destruct (truthyStr (apiKey config)); cbn; repeat split.
Qed.

(** ** The environment *)

Lemma assertVar_isOk (o : option string) (msg : string) :
  isOk (Env.assertVar o msg) = truthyStr o.
Proof.
  unfold Env.assertVar, truthyStr. destruct o as [s|]; [|reflexivity].
  destruct (String.eqb s ""); reflexivity.
Qed.

Lemma assertVar_Ok (o : option string) (msg v : string) :
  Env.assertVar o msg = Ok v -> o = Some v /\ v <> "".
Proof.
  unfold Env.assertVar. destruct o as [s|]; [|discriminate].
  destruct (String.eqb_spec s ""); [discriminate|].
  intros [= ->]. auto.
Qed.

Lemma truthyStr_true (o : option string) :
  truthyStr o = true <-> exists s, o = Some s /\ s <> "".
Proof.
  unfold truthyStr. destruct o as [s|].
  - destruct (String.eqb_spec s ""); cbn; split.
    + discriminate.
    + intros (s' & [= <-] & Hne). contradiction.
    + eauto.
    + reflexivity.
  - split; [discriminate|intros (s & H & _); discriminate].
Qed.

Lemma truthyStr_default (o : option string) (dflt : string) :
  dflt <> "" ->
  truthyStr (Some (default dflt o)) = true <-> o <> Some "".
Proof.
  intros Hd. rewrite truthyStr_true. destruct o as [s|]; cbn; split.
  - intros (s' & [= <-] & Hne). congruence.
  - intros Hne. exists s. split; [reflexivity|congruence].
  - discriminate.
  - intros _. eauto.
Qed.

(** The checks of [loadEnvVars], as the booleans its assertions test. *)
Lemma loadEnvVars_isOk (env : gmap string string) :
  isOk (Env.loadEnvVars env)
  = truthyStr (env !! "MONGODB_CONNECTION_URI")
    && (truthyStr (env !! "MONGODB_DATABASE_NAME")
    && (truthyStr (env !! "VECTOR_SEARCH_INDEX_NAME")
    && (if String.eqb (toLowerCase (default "ollama" (env !! "LLM_PROVIDER")))
                      "ollama"
        then truthyStr (Some (default "http://localhost:11434"
                                (env !! "OLLAMA_BASE_URL")))
             && truthyStr (Some (default "nomic-embed-text"
                                   (env !! "OLLAMA_EMBEDDING_MODEL")))
        else if String.eqb
                  (toLowerCase (default "ollama" (env !! "LLM_PROVIDER")))
                  "gemini"
             then truthyStr (env !! "GEMINI_API_KEY")
             else true))).
Proof.
  unfold Env.loadEnvVars. cbv zeta.
  rewrite <- (assertVar_isOk (env !! "MONGODB_CONNECTION_URI")
                "MONGODB_CONNECTION_URI is required").
  rewrite <- (assertVar_isOk (env !! "MONGODB_DATABASE_NAME")
                "MONGODB_DATABASE_NAME is required").
  rewrite <- (assertVar_isOk (env !! "VECTOR_SEARCH_INDEX_NAME")
                "VECTOR_SEARCH_INDEX_NAME is required").
  rewrite <- (assertVar_isOk (env !! "GEMINI_API_KEY")
                "GEMINI_API_KEY is required when using Gemini provider").
  rewrite <- (assertVar_isOk (Some (default "http://localhost:11434" _))
                "OLLAMA_BASE_URL is required when using Ollama provider").
  rewrite <- (assertVar_isOk (Some (default "nomic-embed-text" _))
                "OLLAMA_EMBEDDING_MODEL is required when using Ollama provider").
  destruct (Env.assertVar (env !! "MONGODB_CONNECTION_URI") _) as [uri|e];
    cbn [Env.andThen isOk andb]; [|reflexivity].
  destruct (Env.assertVar (env !! "MONGODB_DATABASE_NAME") _) as [db|e];
    cbn [Env.andThen isOk andb]; [|reflexivity].
  destruct (Env.assertVar (env !! "VECTOR_SEARCH_INDEX_NAME") _) as [idx|e];
    cbn [Env.andThen isOk andb]; [|reflexivity].
  destruct (String.eqb _ "ollama").
  - destruct (Env.assertVar (Some (default "http://localhost:11434" _)) _);
      cbn [Env.andThen isOk andb]; [|reflexivity].
    destruct (Env.assertVar (Some (default "nomic-embed-text" _)) _);
      reflexivity.
  - destruct (String.eqb _ "gemini"); [|reflexivity].
    destruct (Env.assertVar (env !! "GEMINI_API_KEY") _); reflexivity.
Qed.

(** X21: [loadEnvVars] succeeds exactly when the three MongoDB variables are
    set and not empty and, for the provider [ollama] (in any capitalisation,
    and by default), neither the base URL nor the embedding model is set to
    the empty string, and, for the provider [gemini], the API key is set and
    not empty; nothing else is checked. *)
Theorem loadEnvVars_succeeds_iff (env : gmap string string) :
  let provider := toLowerCase (default "ollama" (env !! "LLM_PROVIDER")) in
  isOk (Env.loadEnvVars env) = true <->
    truthyStr (env !! "MONGODB_CONNECTION_URI") = true
    /\ truthyStr (env !! "MONGODB_DATABASE_NAME") = true
    /\ truthyStr (env !! "VECTOR_SEARCH_INDEX_NAME") = true
    /\ (provider = "ollama" ->
        env !! "OLLAMA_BASE_URL" <> Some ""
        /\ env !! "OLLAMA_EMBEDDING_MODEL" <> Some "")
    /\ (provider = "gemini" -> truthyStr (env !! "GEMINI_API_KEY") = true).
Proof.
  intros provider. rewrite loadEnvVars_isOk. fold provider.
  rewrite !andb_true_iff.
  assert (Hchecks :
    (if String.eqb provider "ollama"
     then truthyStr (Some (default "http://localhost:11434"
                             (env !! "OLLAMA_BASE_URL")))
          && truthyStr (Some (default "nomic-embed-text"
                                (env !! "OLLAMA_EMBEDDING_MODEL")))
     else if String.eqb provider "gemini"
          then truthyStr (env !! "GEMINI_API_KEY") else true) = true
    <-> (provider = "ollama" ->
         env !! "OLLAMA_BASE_URL" <> Some ""
         /\ env !! "OLLAMA_EMBEDDING_MODEL" <> Some "")
        /\ (provider = "gemini" -> truthyStr (env !! "GEMINI_API_KEY") = true)).
  { destruct (String.eqb_spec provider "ollama") as [Ho|Ho].
    - rewrite andb_true_iff, !truthyStr_default by discriminate.
      split.
      + intros H. split; [intros _; exact H|].
        intros Hg. rewrite Ho in Hg. discriminate Hg.
      + intros [H _]. exact (H Ho).
    - destruct (String.eqb_spec provider "gemini") as [Hg|Hg].
      + split; [intros H; split; [intros; contradiction|intros _; exact H]|].
        intros [_ H]. exact (H Hg).
      + split; [intros _; split; intros; contradiction|reflexivity]. }
  rewrite Hchecks. tauto.
Qed.

(** What a successful load hands back. *)
Lemma loadEnvVars_Ok_inv (env : gmap string string) (v : Env.EnvVars) :
  Env.loadEnvVars env = Ok v ->
  env !! "MONGODB_CONNECTION_URI" = Some (Env.MONGODB_CONNECTION_URI v)
  /\ env !! "MONGODB_DATABASE_NAME" = Some (Env.MONGODB_DATABASE_NAME v)
  /\ env !! "VECTOR_SEARCH_INDEX_NAME" = Some (Env.VECTOR_SEARCH_INDEX_NAME v)
  /\ Env.MONGODB_CONNECTION_URI v <> ""
  /\ Env.MONGODB_DATABASE_NAME v <> ""
  /\ Env.VECTOR_SEARCH_INDEX_NAME v <> ""
  /\ Env.LLM_PROVIDER v = default "ollama" (env !! "LLM_PROVIDER")
  /\ Env.OLLAMA_BASE_URL v
     = default "http://localhost:11434" (env !! "OLLAMA_BASE_URL")
  /\ Env.OLLAMA_EMBEDDING_MODEL v
     = default "nomic-embed-text" (env !! "OLLAMA_EMBEDDING_MODEL")
  /\ Env.GEMINI_API_KEY v = env !! "GEMINI_API_KEY"
  /\ Env.LLM_TIMEOUT_MS v
     = Env.parseInt10 (default "60000" (env !! "LLM_TIMEOUT_MS")).
Proof.
  unfold Env.loadEnvVars. cbv zeta.
  destruct (Env.assertVar (env !! "MONGODB_CONNECTION_URI") _) as [uri|e]
    eqn:Huri; cbn [Env.andThen]; [|discriminate].
  destruct (Env.assertVar (env !! "MONGODB_DATABASE_NAME") _) as [db|e]
    eqn:Hdb; cbn [Env.andThen]; [|discriminate].
  destruct (Env.assertVar (env !! "VECTOR_SEARCH_INDEX_NAME") _) as [idx|e]
    eqn:Hidx; cbn [Env.andThen]; [|discriminate].
  apply assertVar_Ok in Huri as [Huri ?], Hdb as [Hdb ?], Hidx as [Hidx ?].
  match goal with |- Env.andThen ?r _ = _ -> _ => destruct r end;
    cbn [Env.andThen]; [|discriminate].
  intros [= <-]. cbn. repeat split; assumption.
Qed.

(** After a successful load with the provider [gemini], the key is there. *)
Lemma loadEnvVars_gemini_key (env : gmap string string) (v : Env.EnvVars) :
  Env.loadEnvVars env = Ok v ->
  toLowerCase (Env.LLM_PROVIDER v) = "gemini" ->
  truthyStr (Env.GEMINI_API_KEY v) = true.
Proof.
  intros Hload Hg.
  assert (Hok : isOk (Env.loadEnvVars env) = true) by now rewrite Hload.
  destruct (loadEnvVars_Ok_inv env v Hload)
    as (_ & _ & _ & _ & _ & _ & Hp & _ & _ & Hk & _).
  rewrite loadEnvVars_isOk, <- Hp, Hg, <- Hk in Hok. cbn [String.eqb] in Hok.
  rewrite !andb_true_iff in Hok. tauto.
Qed.

(** X22: after a successful load, the three MongoDB values are not empty;
    when the provider is [ollama] in any capitalisation, the base URL and
    the embedding model returned are not empty; when it is [gemini], the API
    key returned is set and not empty; an absent [LLM_PROVIDER] has become
    [ollama] and an absent [LLM_TIMEOUT_MS] has become 60000. *)
Theorem loadEnvVars_guarantees (env : gmap string string) (v : Env.EnvVars) :
  Env.loadEnvVars env = Ok v ->
  Env.MONGODB_CONNECTION_URI v <> ""
  /\ Env.MONGODB_DATABASE_NAME v <> ""
  /\ Env.VECTOR_SEARCH_INDEX_NAME v <> ""
  /\ (toLowerCase (Env.LLM_PROVIDER v) = "ollama" ->
      Env.OLLAMA_BASE_URL v <> "" /\ Env.OLLAMA_EMBEDDING_MODEL v <> "")
  /\ (toLowerCase (Env.LLM_PROVIDER v) = "gemini" ->
      truthyStr (Env.GEMINI_API_KEY v) = true)
  /\ (env !! "LLM_PROVIDER" = None -> Env.LLM_PROVIDER v = "ollama")
  /\ (env !! "LLM_TIMEOUT_MS" = None -> Env.LLM_TIMEOUT_MS v = Some 60000%Z).
Proof.
  intros Hload.
  assert (Hok : isOk (Env.loadEnvVars env) = true) by now rewrite Hload.
  destruct (loadEnvVars_Ok_inv env v Hload)
    as (_ & _ & _ & H1 & H2 & H3 & Hp & Hb & Hm & Hk & Ht).
  split; [exact H1|]. split; [exact H2|]. split; [exact H3|].
  split; [|split; [|split]].
  - intros Ho. rewrite loadEnvVars_isOk, <- Hp, Ho, <- Hb, <- Hm in Hok.
    rewrite String.eqb_refl, !andb_true_iff in Hok.
    destruct Hok as (_ & _ & _ & Hbase & Hmodel).
    apply truthyStr_true in Hbase as (b & [= <-] & Hbase).
    apply truthyStr_true in Hmodel as (m & [= <-] & Hmodel).
    split; assumption.
  - exact (loadEnvVars_gemini_key env v Hload).
  - intros Hnone. now rewrite Hp, Hnone.
  - intros Hnone. now rewrite Ht, Hnone.
Qed.

Lemma loadEnvVars_guarantees_witness :
  Env.loadEnvVars (<["LLM_PROVIDER" := "Gemini"]>
                     (<["GEMINI_API_KEY" := "key"]> mongoOnly))
  = Ok {| Env.MONGODB_CONNECTION_URI := "mongodb://localhost";
          Env.MONGODB_DATABASE_NAME := "cookbook";
          Env.VECTOR_SEARCH_INDEX_NAME := "vector_index";
          Env.LLM_PROVIDER := "Gemini";
          Env.OLLAMA_BASE_URL := "http://localhost:11434";
          Env.OLLAMA_EMBEDDING_MODEL := "nomic-embed-text";
          Env.OLLAMA_CHAT_MODEL := "llama3";
          Env.GEMINI_API_KEY := Some "key";
          Env.GEMINI_CHAT_MODEL := "gemini-pro";
          Env.GEMINI_EMBEDDING_MODEL := "embedding-001";
          Env.LLM_TIMEOUT_MS := Some 60000%Z |}
  /\ truthyStr (Some "key") = true.
Proof.
  assert (H : Env.loadEnvVars (<["LLM_PROVIDER" := "Gemini"]>
                                 (<["GEMINI_API_KEY" := "key"]> mongoOnly))
              = Ok {| Env.MONGODB_CONNECTION_URI := "mongodb://localhost";
                      Env.MONGODB_DATABASE_NAME := "cookbook";
                      Env.VECTOR_SEARCH_INDEX_NAME := "vector_index";
                      Env.LLM_PROVIDER := "Gemini";
                      Env.OLLAMA_BASE_URL := "http://localhost:11434";
                      Env.OLLAMA_EMBEDDING_MODEL := "nomic-embed-text";
                      Env.OLLAMA_CHAT_MODEL := "llama3";
                      Env.GEMINI_API_KEY := Some "key";
                      Env.GEMINI_CHAT_MODEL := "gemini-pro";
                      Env.GEMINI_EMBEDDING_MODEL := "embedding-001";
                      Env.LLM_TIMEOUT_MS := Some 60000%Z |})
    by (vm_compute; reflexivity).
  split; [exact H|].
  destruct (loadEnvVars_guarantees _ _ H) as (_ & _ & _ & _ & Hg & _).
  apply Hg. reflexivity.
Defined.

Lemma getLlmProvider_Own_inv (providerName : string) (p : Factory.LlmProvider) :
  Factory.getLlmProvider providerName = Ok (Factory.Own p) ->
  toLowerCase providerName = Factory.getName p.
Proof.
  unfold Factory.getLlmProvider, Factory.getProperty, Factory.providers.
  cbn [Factory.ownProperty].
  destruct (String.eqb_spec "ollama" (toLowerCase providerName)) as [Ho|Ho].
  - intros [= <-]. now rewrite <- Ho.
  - destruct (String.eqb_spec "gemini" (toLowerCase providerName)) as [Hg|Hg].
    + intros [= <-]. now rewrite <- Hg.
    + destruct (existsb _ _); discriminate.
Qed.

(** X23: what [loadEnvVars] checks is enough for the constructors: after a
    successful load, if the provider it names is registered, building the
    chat capability and the embedder of that provider with the API key the
    load returned does not throw. *)
Theorem loaded_environment_constructs (out : Outside)
  (env : gmap string string) (v : Env.EnvVars) (p : Factory.LlmProvider)
  (config : LlmProviderConfig) (w : World) :
  Env.loadEnvVars env = Ok v ->
  Factory.getLlmProvider (Env.LLM_PROVIDER v) = Ok (Factory.Own p) ->
  apiKey config = Env.GEMINI_API_KEY v ->
  isOk (Factory.createChatLlm out (Env.LLM_PROVIDER v) config w).1 = true
  /\ isOk (Factory.createEmbedder out (Env.LLM_PROVIDER v) config w).1 = true.
Proof.
  intros Hload Hget Hkey.
  unfold Factory.createChatLlm, Factory.createEmbedder. rewrite Hget.
  destruct p; [split; reflexivity|].
  apply getLlmProvider_Own_inv in Hget. cbn [Factory.getName] in Hget.
  pose proof (loadEnvVars_gemini_key env v Hload Hget) as Hk.
  unfold Factory.providerCreateChatLlm, Factory.providerCreateEmbedder,
    Gemini.createChatLlm, Gemini.createEmbedder.
  rewrite Hkey, Hk. split; reflexivity.
Qed.

Lemma loaded_environment_constructs_witness :
  Env.loadEnvVars (<["LLM_PROVIDER" := "Gemini"]>
                     (<["GEMINI_API_KEY" := "key"]> mongoOnly))
  = Ok {| Env.MONGODB_CONNECTION_URI := "mongodb://localhost";
          Env.MONGODB_DATABASE_NAME := "cookbook";
          Env.VECTOR_SEARCH_INDEX_NAME := "vector_index";
          Env.LLM_PROVIDER := "Gemini";
          Env.OLLAMA_BASE_URL := "http://localhost:11434";
          Env.OLLAMA_EMBEDDING_MODEL := "nomic-embed-text";
          Env.OLLAMA_CHAT_MODEL := "llama3";
          Env.GEMINI_API_KEY := Some "key";
          Env.GEMINI_CHAT_MODEL := "gemini-pro";
          Env.GEMINI_EMBEDDING_MODEL := "embedding-001";
          Env.LLM_TIMEOUT_MS := Some 60000%Z |}
  /\ isOk (Factory.createChatLlm alwaysUp "Gemini" geminiConfig World0).1
     = true
  /\ isOk (Factory.createEmbedder alwaysUp "Gemini" geminiConfig World0).1
     = true.
Proof.
  assert (H : Env.loadEnvVars (<["LLM_PROVIDER" := "Gemini"]>
                                 (<["GEMINI_API_KEY" := "key"]> mongoOnly))
              = Ok {| Env.MONGODB_CONNECTION_URI := "mongodb://localhost";
                      Env.MONGODB_DATABASE_NAME := "cookbook";
                      Env.VECTOR_SEARCH_INDEX_NAME := "vector_index";
                      Env.LLM_PROVIDER := "Gemini";
                      Env.OLLAMA_BASE_URL := "http://localhost:11434";
                      Env.OLLAMA_EMBEDDING_MODEL := "nomic-embed-text";
                      Env.OLLAMA_CHAT_MODEL := "llama3";
                      Env.GEMINI_API_KEY := Some "key";
                      Env.GEMINI_CHAT_MODEL := "gemini-pro";
                      Env.GEMINI_EMBEDDING_MODEL := "embedding-001";
                      Env.LLM_TIMEOUT_MS := Some 60000%Z |})
    by (vm_compute; reflexivity).
  split; [exact H|].
  exact (loaded_environment_constructs alwaysUp _ _ Factory.GeminiProvider
           geminiConfig World0 H eq_refl eq_refl).
Defined.

(** X24: [loadEnvVars] does not check that the provider exists: with the
    three MongoDB variables set, a provider name that is neither registered
    nor a property of [Object.prototype] is accepted and returned as it is,
    and it is [getLlmProvider] that rejects it later. *)
Theorem unknown_provider_passes_the_load (env : gmap string string)
  (providerName : string) :
  truthyStr (env !! "MONGODB_CONNECTION_URI") = true ->
  truthyStr (env !! "MONGODB_DATABASE_NAME") = true ->
  truthyStr (env !! "VECTOR_SEARCH_INDEX_NAME") = true ->
  env !! "LLM_PROVIDER" = Some providerName ->
  toLowerCase providerName ∉ Factory.objectKeys Factory.providers ->
  toLowerCase providerName ∉ Factory.objectPrototypeKeys ->
  exists v,
    Env.loadEnvVars env = Ok v
    /\ Env.LLM_PROVIDER v = providerName
    /\ isOk (Factory.getLlmProvider (Env.LLM_PROVIDER v)) = false.
Proof.
  intros Huri Hdb Hidx Hprov Hown Hproto.
  assert (Hok : isOk (Env.loadEnvVars env) = true).
  { rewrite loadEnvVars_isOk, Huri, Hdb, Hidx, Hprov.
    cbn [default from_option id andb].
    unfold Factory.objectKeys, Factory.providers in Hown.
    cbn [map fst] in Hown. rewrite !not_elem_of_cons in Hown.
    destruct Hown as (H1 & H2 & _).
    destruct (String.eqb_spec (toLowerCase providerName) "ollama");
      [contradiction|].
    destruct (String.eqb_spec (toLowerCase providerName) "gemini");
      [contradiction|reflexivity]. }
  destruct (Env.loadEnvVars env) as [v|e] eqn:Hload; [|discriminate].
  exists v. split; [reflexivity|].
  destruct (loadEnvVars_Ok_inv env v Hload)
    as (_ & _ & _ & _ & _ & _ & Hp & _).
  rewrite Hprov in Hp. cbn in Hp. rewrite Hp. split; [reflexivity|].
  unfold Factory.getLlmProvider.
  now rewrite (getProperty_None _ Hown Hproto).
Qed.

Lemma unknown_provider_passes_the_load_witness :
  truthyStr ((<["LLM_PROVIDER" := "OpenAI"]> mongoOnly : gmap string string)
               !! "MONGODB_CONNECTION_URI") = true
  /\ exists v,
       Env.loadEnvVars (<["LLM_PROVIDER" := "OpenAI"]> mongoOnly) = Ok v
       /\ Env.LLM_PROVIDER v = "OpenAI"
       /\ isOk (Factory.getLlmProvider (Env.LLM_PROVIDER v)) = false.
Proof.
  split; [vm_compute; reflexivity|].
  apply (unknown_provider_passes_the_load
           (<["LLM_PROVIDER" := "OpenAI"]> mongoOnly) "OpenAI").
  - vm_compute. reflexivity.
  - vm_compute. reflexivity.
  - vm_compute. reflexivity.
  - vm_compute. reflexivity.
  - cbn. rewrite !not_elem_of_cons. repeat split; try discriminate.
    apply not_elem_of_nil.
  - unfold Factory.objectPrototypeKeys. cbn.
    rewrite !not_elem_of_cons. repeat split; try discriminate.
    apply not_elem_of_nil.
Defined.

(** X25: [LLM_TIMEOUT_MS] is never checked and touches nothing else:
    whatever text it holds, the load succeeds or fails as it does without
    it, with the same error when it fails and, when it succeeds, with the
    same value in every field but the timeout. *)
Theorem timeout_is_never_validated (env : gmap string string) (t : string) :
  isOk (Env.loadEnvVars (<["LLM_TIMEOUT_MS" := t]> env))
  = isOk (Env.loadEnvVars env)
  /\ mapResult withoutTimeout (Env.loadEnvVars (<["LLM_TIMEOUT_MS" := t]> env))
     = mapResult withoutTimeout (Env.loadEnvVars env).
Proof.
  split.
  - rewrite !loadEnvVars_isOk.
    rewrite !lookup_insert_ne by discriminate. reflexivity.
  - unfold Env.loadEnvVars. cbv zeta.
    rewrite !lookup_insert_ne by discriminate.
    destruct (Env.assertVar (env !! "MONGODB_CONNECTION_URI") _) as [uri|e];
      cbn [Env.andThen mapResult]; [|reflexivity].
    destruct (Env.assertVar (env !! "MONGODB_DATABASE_NAME") _) as [db|e];
      cbn [Env.andThen mapResult]; [|reflexivity].
    destruct (Env.assertVar (env !! "VECTOR_SEARCH_INDEX_NAME") _) as [idx|e];
      cbn [Env.andThen mapResult]; [|reflexivity].
    match goal with |- mapResult _ (Env.andThen ?r _) = _ => destruct r end;
      reflexivity.
Qed.

(** ** The embedder of the ingest configuration *)

(** X26: when the provider is [ollama] in any capitalisation, the embedder of
    the ingest configuration logs the provider and then embeds with the
    Ollama embedder at 25 attempts, a starting delay of 1000 and the default
    cap of 5000, at [OLLAMA_BASE_URL]; the model it posts is
    [GEMINI_EMBEDDING_MODEL], the second [embeddingModel] of the literal, and
    [OLLAMA_EMBEDDING_MODEL] has no effect on the configuration at all. *)
Theorem ingest_embedder_for_ollama (out : Outside) (v : Ingest.IngestEnv)
  (text : string) (w : World) :
  toLowerCase (Ingest.LLM_PROVIDER v) = "ollama" ->
  constructThenEmbed (Ingest.embedder out v) text w
  = Ollama.embedWith out 25 5000 1000
      (orStr (Ingest.OLLAMA_BASE_URL v) "http://localhost:11434")
      (orStr (Ingest.GEMINI_EMBEDDING_MODEL v) "nomic-embed-text")
      text
      {| calls := calls w; draws := draws w;
         events := events w
                     ++ [ConsoleLog ("Using " ++ Ingest.LLM_PROVIDER v
                                       ++ " provider for embeddings")] |}
  /\ (forall other,
        Ingest.embedderConfig
          {| Ingest.LLM_PROVIDER := Ingest.LLM_PROVIDER v;
             Ingest.OLLAMA_BASE_URL := Ingest.OLLAMA_BASE_URL v;
             Ingest.OLLAMA_EMBEDDING_MODEL := other;
             Ingest.GEMINI_API_KEY := Ingest.GEMINI_API_KEY v;
             Ingest.GEMINI_EMBEDDING_MODEL := Ingest.GEMINI_EMBEDDING_MODEL v;
             Ingest.LLM_TIMEOUT_MS := Ingest.LLM_TIMEOUT_MS v |}
        = Ingest.embedderConfig v).
Proof.
  intros Hprov. split; [|reflexivity].
  unfold constructThenEmbed, Ingest.embedder, bind, consoleLog, emit,
    Factory.createEmbedder, Factory.getLlmProvider.
  rewrite Hprov. reflexivity.
Qed.

Lemma ingest_embedder_for_ollama_witness :
  toLowerCase (Ingest.LLM_PROVIDER ollamaIngest) = "ollama"
  /\ constructThenEmbed (Ingest.embedder upAtThird ollamaIngest) "text" World0
     = Ollama.embedWith upAtThird 25 5000 1000 "http://ollama:11434"
         "embedding-001" "text"
         {| calls := 0; draws := 0;
            events := [ConsoleLog "Using Ollama provider for embeddings"] |}.
Proof.
  split; [reflexivity|].
  exact (proj1 (ingest_embedder_for_ollama upAtThird ollamaIngest "text"
                  World0 eq_refl)).
Defined.

(** ** The two copies of the Ollama chat adapter *)

Lemma orStr_Some (s dflt : string) : s <> "" -> orStr (Some s) dflt = s.
Proof.
  intros Hs. cbn. destruct (String.eqb_spec s ""); [contradiction|reflexivity].
Qed.

(** X27: [OllamaProvider.createChatLlm] builds the chat capability of the
    stand-alone [makeOllamaLlm] for the same base URL and model, when these
    are not empty and the timeout is absent, zero or 60000; it never throws
    and touches nothing. *)
Theorem ollama_chat_adapters_agree (out : Outside) (config : LlmProviderConfig)
  (url name : string) (w : World) :
  baseUrl config = Some url -> url <> "" ->
  model config = Some name -> name <> "" ->
  timeout config = None \/ timeout config = Some 0%Z
  \/ timeout config = Some 60000%Z ->
  Ollama.createChatLlm out config w
  = (Ok (Ollama.makeOllamaLlm out url name), w).
Proof.
  intros Hurl Hne Hmodel Hnm Htimeout.
  unfold Ollama.createChatLlm, Ollama.makeOllamaLlm, ret.
  rewrite Hurl, Hmodel, (orStr_Some _ _ Hne), (orStr_Some _ _ Hnm).
  destruct Htimeout as [->|[->| ->]]; reflexivity.
Qed.

Lemma ollama_chat_adapters_agree_witness :
  baseUrl {| apiKey := None; baseUrl := Some "http://ollama:11434";
             model := Some "llama3"; embeddingModel := None;
             timeout := Some 0%Z; numOfAttempts := None; maxDelay := None;
             startingDelay := None |} = Some "http://ollama:11434"
  /\ Ollama.createChatLlm alwaysUp
       {| apiKey := None; baseUrl := Some "http://ollama:11434";
          model := Some "llama3"; embeddingModel := None;
          timeout := Some 0%Z; numOfAttempts := None; maxDelay := None;
          startingDelay := None |} World0
     = (Ok (Ollama.makeOllamaLlm alwaysUp "http://ollama:11434" "llama3"),
        World0).
Proof.
  split; [reflexivity|].
  apply ollama_chat_adapters_agree;
    [reflexivity|discriminate|reflexivity|discriminate|right; left; reflexivity].
Defined.
